(** * EcoHarvest crop-yield application ([app.py]): model lifecycle and inference

    A shallow embedding of the two pieces of [app.py] that carry logic:

    - [get_model_data] (the "smart model loader"): load the pickled artifact
      when it exists, otherwise download the dataset, clean it, encode the
      temperature column, fit a linear regression and pickle the result;
    - the module-level script: the [if data:] guard, the temperature
      encoding block ([final_temp]) and the prediction block ([inputs]).

    Python values are modelled by the inductive [pyobj], exceptions by values
    of type [exn] in a sum, the file system by a finite map from paths to file
    contents, and the calls into pickle, scikit-learn's [LinearRegression] and
    Python's float formatting by the operations of a [Platform]. *)

From Stdlib Require Import ZArith List String Ascii Bool Lia PrimFloat.
From stdpp Require Import base option list gmap strings pretty.

Open Scope Z_scope.
Open Scope string_scope.

(** ** Exceptions *)

(** The exception classes that the modelled calls can raise.  All of them are
    subclasses of Python's [Exception], so both [except Exception] and a bare
    [except:] catch every one of them. *)
Inductive exn :=
| ImportError (name : string)
| OSError (msg : string)
| FileNotFoundError (path : string)
| KeyError (key : string)
| ValueError (msg : string)
| TypeError (msg : string)
| AttributeError (attr : string)
| IndexError
| NotFittedError
| UnpicklingError (msg : string).

(** A computation that returns an [A] or raises. *)
Definition result (A : Type) : Type := exn + A.

Definition rbind {A B} (r : result A) (k : A -> result B) : result B :=
  match r with
  | inl e => inl e
  | inr a => k a
  end.

Notation "'let!' x ':=' r 'in' k" := (rbind r (fun x => k))
  (at level 10, x name, r at level 100, k at level 200).

(** ** Numbers and table cells *)

(** A Python number: an [int] or a [float] (IEEE binary64). *)
Inductive num :=
| NInt (z : Z)
| NFloat (f : float).

(** A cell of a loaded [DataFrame].  [CNA] is [None]; a float NaN is also a
    missing value for pandas. *)
Inductive cell :=
| CNA
| CInt (z : Z)
| CFloat (f : float)
| CStr (s : string).

Definition isna (c : cell) : bool :=
  match c with
  | CNA => true
  | CFloat f => PrimFloat.is_nan f
  | _ => false
  end.

(** ** [pandas.DataFrame] *)

(** Column labels and the rows, each row holding one cell per column.  The
    cells are the values as the loaded table holds them. *)
Record DataFrame := {
  columns : list string;
  rows : list (list cell)
}.

(** Position of the first occurrence of [s] in [l]. *)
Fixpoint index_of (s : string) (l : list string) : option nat :=
  match l with
  | [] => None
  | x :: l' => if String.eqb s x then Some 0%nat else S <$> index_of s l'
  end.

(** [c in cy.columns] *)
Definition has_column (c : string) (cy : DataFrame) : bool :=
  match index_of c (columns cy) with
  | Some _ => true
  | None => false
  end.

(** [cy.dropna()]: keep the rows without a missing value in any column. *)
Definition complete_row (r : list cell) : bool := forallb (fun c => negb (isna c)) r.

Definition dropna (cy : DataFrame) : DataFrame :=
  {| columns := columns cy; rows := filter (fun r => complete_row r = true) (rows cy) |}.

(** [cy[c]]: the column labelled [c], or [KeyError]. *)
Definition getitem (cy : DataFrame) (c : string) : result (list cell) :=
  match index_of c (columns cy) with
  | Some i => inr (map (fun r => nth i r CNA) (rows cy))
  | None => inl (KeyError c)
  end.

(** [cy[c] = vals]: overwrite the column labelled [c]; a new label appends a
    column.  [ValueError] unless there is one value per row. *)
Definition setitem (cy : DataFrame) (c : string) (vals : list cell) : result DataFrame :=
  if (length vals =? length (rows cy))%nat then
    match index_of c (columns cy) with
    | Some i =>
        inr {| columns := columns cy;
               rows := zip_with (fun r v => <[i := v]> r) (rows cy) vals |}
    | None =>
        inr {| columns := (columns cy ++ [c])%list;
               rows := zip_with (fun r v => (r ++ [v])%list) (rows cy) vals |}
    end
  else inl (ValueError "Length of values does not match length of index").

(** Positions of the labels [cs], or [KeyError] at the first absent one. *)
Fixpoint indices_of (cs : list string) (cols : list string) : result (list nat) :=
  match cs with
  | [] => inr []
  | c :: cs' =>
      match index_of c cols with
      | None => inl (KeyError c)
      | Some i => let! idxs := indices_of cs' cols in inr (i :: idxs)
      end
  end.

(** [cy[[c1, ..., cn]]]: the sub-table with these columns in this order. *)
Definition getitems (cy : DataFrame) (cs : list string) : result (list (list cell)) :=
  let! idxs := indices_of cs (columns cy) in
  inr (map (fun r => map (fun i => nth i r CNA) idxs) (rows cy)).

(** ** [sklearn.preprocessing.LabelEncoder] *)

(** The encoder holds [classes_] once fitted: the distinct labels in sorted
    order; a label's code is its position in [classes_]. *)
Record LabelEncoder := {
  classes_ : option (list string)
}.

Definition LabelEncoder_new : LabelEncoder := {| classes_ := None |}.

(** Insertion into a strictly sorted list of labels (code-point order). *)
Fixpoint insert_label (s : string) (l : list string) : list string :=
  match l with
  | [] => [s]
  | x :: l' =>
      match String.compare s x with
      | Lt => s :: l
      | Eq => l
      | Gt => x :: insert_label s l'
      end
  end.

(** [np.unique]: the sorted distinct labels. *)
Definition np_unique (y : list string) : list string :=
  fold_right insert_label [] y.

(** [LE.fit_transform(y)]: fit on [y] and return the codes of [y]. *)
Definition fit_transform (y : list string) : LabelEncoder * list Z :=
  let cs := np_unique y in
  ({| classes_ := Some cs |},
   map (fun s => Z.of_nat (default 0%nat (index_of s cs))) y).

(** [LE.transform(y)]: [NotFittedError] before fitting, [ValueError] on a
    label that is not in [classes_]. *)
Fixpoint encode_labels (cs : list string) (y : list string) : result (list Z) :=
  match y with
  | [] => inr []
  | s :: y' =>
      match index_of s cs with
      | None => inl (ValueError "y contains previously unseen labels")
      | Some i => let! zs := encode_labels cs y' in inr (Z.of_nat i :: zs)
      end
  end.

Definition transform (LE : LabelEncoder) (y : list string) : result (list Z) :=
  match classes_ LE with
  | None => inl NotFittedError
  | Some cs => encode_labels cs y
  end.

(** ** [sklearn.linear_model.LinearRegression] and Python objects *)

Record LinearRegression := {
  coef_ : list float;
  intercept_ : float
}.

(** The Python objects that an artifact file can hold. *)
#[local] Unset Elimination Schemes.
Inductive pyobj :=
| PyNone
| PyInt (z : Z)
| PyStr (s : string)
| PyModel (LR : LinearRegression)
| PyEncoder (LE : LabelEncoder)
| PyDict (d : gmap string pyobj).
#[local] Set Elimination Schemes.

(** Truth value of an object in an [if]: [None], [0], [''] and [{}] are
    false; estimator objects define neither [__bool__] nor [__len__] and are
    true, fitted or not. *)
Definition truthy (v : pyobj) : bool :=
  match v with
  | PyNone => false
  | PyInt z => negb (Z.eqb z 0)
  | PyStr s => negb (String.eqb s EmptyString)
  | PyModel _ => true
  | PyEncoder _ => true
  | PyDict d => negb (bool_decide (d = ∅))
  end.

(** [data[k]] *)
Definition py_getitem (v : pyobj) (k : string) : result pyobj :=
  match v with
  | PyDict d =>
      match d !! k with
      | Some x => inr x
      | None => inl (KeyError k)
      end
  | _ => inl (TypeError "object is not subscriptable")
  end.

(** [data.get(k)] *)
Definition py_get (v : pyobj) (k : string) : result pyobj :=
  match v with
  | PyDict d => inr (default PyNone (d !! k))
  | _ => inl (AttributeError "get")
  end.

(** [obj.transform(y)] on an arbitrary object. *)
Definition py_transform (v : pyobj) (y : list string) : result (list Z) :=
  match v with
  | PyEncoder LE => transform LE y
  | _ => inl (AttributeError "transform")
  end.

(** ** The platform: pickle, scikit-learn's regression, float formatting *)

(** The library calls that [app.py] makes and whose results it only passes
    on.  A [blob] is the content of a file. *)
Class Platform := {
  blob : Type;
  (** [pickle.dump] and [pickle.load] *)
  pickle_dumps : pyobj -> blob;
  pickle_loads : blob -> result pyobj;
  (** [str] of a float *)
  float_repr : float -> string;
  (** [LinearRegression().fit(X, y)] on the selected feature table and target *)
  LinearRegression_fit : list (list cell) -> list cell -> result LinearRegression;
  (** [LR.predict(np.array(X))] *)
  LinearRegression_predict : LinearRegression -> list (list num) -> result (list float)
}.

(** ** Constants of [app.py] *)

Definition filename : string := "crop_yield_model.pkl".
Definition dataset_name : string := "crop yield data sheet.xlsx".
Definition temperature_column : string := "Temperatue".
Definition feature_columns : list string :=
  ["Rain Fall (mm)"; "Fertilizer"; "Temperatue"; "Nitrogen (N)"; "Phosphorus (P)"; "Potassium (K)"].
Definition target_column : string := "Yeild (Q/acre)".

(** [s.endswith(suffix)] *)
Definition endswith (s suffix : string) : bool :=
  let n := String.length s in
  let m := String.length suffix in
  (m <=? n)%nat && String.eqb (substring (n - m) m s) suffix.

(** The fallback search: the first directory entry ending in [.xlsx]. *)
Fixpoint first_xlsx (names : list string) : option string :=
  match names with
  | [] => None
  | f :: names' => if endswith f ".xlsx" then Some f else first_xlsx names'
  end.

(** The file of the downloaded directory that is handed to [pd.read_excel]. *)
Definition locate (names : list string) : string :=
  if bool_decide (dataset_name ∈ names) then dataset_name
  else default dataset_name (first_xlsx names).

(** A downloaded directory: its entries in [os.listdir] order, each with what
    [pd.read_excel] makes of it. *)
Definition directory : Type := list (string * result DataFrame).

Fixpoint read_excel (dir : directory) (name : string) : result DataFrame :=
  match dir with
  | [] => inl (FileNotFoundError name)
  | (f, r) :: dir' => if String.eqb name f then r else read_excel dir' name
  end.

Section App.
Context `{P : Platform}.

(** What the outside world does during one run of the script. *)
Inductive write_fault :=
| OpenFails (e : exn)                  (* [open(filename, "wb")] raises *)
| DumpFails (e : exn) (written : blob). (* [pickle.dump] raises after writing [written] *)

Record Env := {
  (** [import kagglehub] and [kagglehub.dataset_download(...)] *)
  download : result directory;
  (** how the write of the artifact goes wrong, if it does *)
  fault : option write_fault
}.

(** What a run shows and which outside calls it makes. *)
Inductive event :=
| StatusWarning          (* "First-time setup: Downloading data & training model..." *)
| DatasetDownload        (* [import kagglehub] is reached; the download follows if the import succeeds *)
| ReadExcel (name : string)
| ModelFit
| ArtifactWrite
| StatusSuccess          (* "System Ready!" *)
| InitializationError (e : exn).  (* [st.error(f"Initialization Error: {e}")] *)

(** Code that reads and writes files in the working directory, shows
    messages, and returns or raises. *)
Definition Run (A : Type) : Type :=
  gmap string blob -> result A * gmap string blob * list event.

Definition ret {A} (a : A) : Run A := fun fs => (inr a, fs, []).

Definition bind {A B} (m : Run A) (k : A -> Run B) : Run B :=
  fun fs =>
    match m fs with
    | (inl e, fs1, t1) => (inl e, fs1, t1)
    | (inr a, fs1, t1) =>
        let '(r, fs2, t2) := k a fs1 in (r, fs2, (t1 ++ t2)%list)
    end.

Definition lift {A} (r : result A) : Run A := fun fs => (r, fs, []).

Definition emit (ev : event) : Run unit := fun fs => (inr tt, fs, [ev]).

(** [try: m  except Exception as e: h e] *)
Definition try_except {A} (m : Run A) (h : exn -> Run A) : Run A :=
  fun fs =>
    match m fs with
    | (inl e, fs1, t1) =>
        let '(r, fs2, t2) := h e fs1 in (r, fs2, (t1 ++ t2)%list)
    | (inr a, fs1, t1) => (inr a, fs1, t1)
    end.

Notation "'do' x '<-' m ';' k" := (bind m (fun x => k))
  (at level 10, x name, m at level 100, k at level 200).
Notation "'do_' m ';' k" := (bind m (fun _ => k))
  (at level 10, m at level 100, k at level 200).

(** ** [get_model_data] *)

(** [str(x)] for the value of a cell, as [astype(str)] applies it. *)
Definition str_cell (c : cell) : string :=
  match c with
  | CNA => "None"
  | CInt z => pretty z
  | CFloat f => float_repr f
  | CStr s => s
  end.

(** Step 3. Encode Temperature. *)
Definition encode_temperature (cy : DataFrame) : result (LabelEncoder * DataFrame) :=
  let LE := LabelEncoder_new in
  if has_column temperature_column cy then
    let! col := getitem cy temperature_column in
    let! cy := setitem cy temperature_column (map (fun c => CStr (str_cell c)) col) in
    let! col := getitem cy temperature_column in
    let fitted := fit_transform (map str_cell col) in
    let! cy := setitem cy temperature_column (map CInt (snd fitted)) in
    inr (fst fitted, cy)
  else inr (LE, cy).

(** Steps 2 to 4 on the loaded table: clean, encode, select, fit. *)
Definition train (cy : DataFrame) : Run (LinearRegression * LabelEncoder) :=
  let cy := dropna cy in
  do enc <- lift (encode_temperature cy);
  let LE := fst enc in
  let cy := snd enc in
  do ind <- lift (getitems cy feature_columns);
  do dep <- lift (getitem cy target_column);
  do_ emit ModelFit;
  do LR <- lift (LinearRegression_fit ind dep);
  ret (LR, LE).

(** Step 5, the write: [with open(filename, "wb") as f: pickle.dump(data, f)]. *)
Definition write_artifact (env : Env) (data : pyobj) : Run unit :=
  fun fs =>
    match fault env with
    | None => (inr tt, <[filename := pickle_dumps data]> fs, [ArtifactWrite])
    | Some (OpenFails e) => (inl e, fs, [ArtifactWrite])
    | Some (DumpFails e written) => (inl e, <[filename := written]> fs, [ArtifactWrite])
    end.

(** The body of the [try] block. *)
Definition first_time_setup (env : Env) : Run pyobj :=
  do_ emit DatasetDownload;
  do dir <- lift (download env);
  let file_path := locate (map fst dir) in
  do_ emit (ReadExcel file_path);
  do cy <- lift (read_excel dir file_path);
  do fitted <- train cy;
  let data : pyobj :=
    PyDict {[ "model" := PyModel (fst fitted); "encoder_temp" := PyEncoder (snd fitted) ]} in
  do_ write_artifact env data;
  do_ emit StatusSuccess;
  ret data.

Definition get_model_data (env : Env) : Run pyobj :=
  fun fs =>
    match fs !! filename with
    | Some b => lift (pickle_loads b) fs
    | None =>
        (do_ emit StatusWarning;
         try_except (first_time_setup env)
           (fun e => do_ emit (InitializationError e); ret PyNone)) fs
    end.

(** ** The script: form, temperature encoding, prediction *)

(** The values of the widgets in one run. *)
Record Form := {
  rain : float;
  temp_input : Z;
  fertilizer : float;
  nitrogen : float;
  phosphorus : float;
  potassium : float;
  predict_btn : bool
}.

(** The block "Encode Temperature Input". *)
Definition final_temp (temp_encoder : pyobj) (temp_input : Z) : Z :=
  if truthy temp_encoder then
    match py_transform temp_encoder [pretty temp_input] with
    | inr (code :: _) => code
    | _ => 0
    end
  else temp_input.

(** The argument of [np.array] in the block "Predict". *)
Definition inputs (f : Form) (final_temp : Z) : list (list num) :=
  [[NFloat (rain f); NFloat (fertilizer f); NInt final_temp;
    NFloat (nitrogen f); NFloat (phosphorus f); NFloat (potassium f)]].

(** [model.predict(inputs)] on an arbitrary object. *)
Definition py_predict (model : pyobj) (X : list (list num)) : result (list float) :=
  match model with
  | PyModel LR => LinearRegression_predict LR X
  | _ => inl (AttributeError "predict")
  end.

(** What the page shows below the header. *)
Inductive page :=
| NoForm
| FormOnly
| Predicted (X : list (list num)) (yield_val : float) (balloons : bool)
| CalculationError (X : list (list num)) (e : exn).

(** The script from [if data:] on. *)
Definition render (data : pyobj) (f : Form) : result page :=
  if truthy data then
    let! model := py_getitem data "model" in
    let! temp_encoder := py_get data "encoder_temp" in
    if predict_btn f then
      let X := inputs f (final_temp temp_encoder (temp_input f)) in
      match
        (let! prediction := py_predict model X in
         match prediction with
         | yield_val :: _ => inr yield_val
         | [] => inl IndexError
         end)
      with
      | inr yield_val => inr (Predicted X yield_val (PrimFloat.ltb 10 yield_val))
      | inl e => inr (CalculationError X e)
      end
    else inr FormOnly
  else inr NoForm.

(** ** The process: reruns of the script with [st.cache_resource] *)

(** The memo of [get_model_data] and the files of the working directory. *)
Record Process := {
  cache : option pyobj;
  files : gmap string blob
}.

(** One run of the script.  [st.cache_resource] returns the stored value
    without running the function; a value is stored when the function
    returns, not when it raises.  The trace holds what the code of this run
    did; the messages of the first call that Streamlit shows again with a
    stored value are not in it. *)
Definition run_script (env : Env) (f : Form) (p : Process)
  : result page * Process * list event :=
  match cache p with
  | Some data => (render data f, p, [])
  | None =>
      match get_model_data env (files p) with
      | (inl e, fs, t) => (inl e, {| cache := None; files := fs |}, t)
      | (inr data, fs, t) => (render data f, {| cache := Some data; files := fs |}, t)
      end
  end.

(** The pages of successive runs, each with its own outside world and widget
    values. *)
Fixpoint session (p : Process) (runs : list (Env * Form)) : list (result page) :=
  match runs with
  | [] => []
  | (env, f) :: runs' =>
      let '(pg, p', _) := run_script env f p in
      pg :: session p' runs'
  end.

End App.

Arguments Env {P}.
Arguments Process {P}.

(** ** Feature order *)

(** The six quantities of an observation, in the order of the model's
    features. *)
Inductive quantity :=
| Rainfall
| Fertilizer
| Temperature
| Nitrogen
| Phosphorus
| Potassium.

Definition feature_order : list quantity :=
  [Rainfall; Fertilizer; Temperature; Nitrogen; Phosphorus; Potassium].

(** The column of the dataset that holds a quantity. *)
Definition column_of (q : quantity) : string :=
  match q with
  | Rainfall => "Rain Fall (mm)"
  | Fertilizer => "Fertilizer"
  | Temperature => "Temperatue"
  | Nitrogen => "Nitrogen (N)"
  | Phosphorus => "Phosphorus (P)"
  | Potassium => "Potassium (K)"
  end.

(** The value that a request carries for a quantity: the widget's value,
    and for the temperature its transformed value. *)
Definition request_value (f : Form) (final_temp : Z) (q : quantity) : num :=
  match q with
  | Rainfall => NFloat (rain f)
  | Fertilizer => NFloat (fertilizer f)
  | Temperature => NInt final_temp
  | Nitrogen => NFloat (nitrogen f)
  | Phosphorus => NFloat (phosphorus f)
  | Potassium => NFloat (potassium f)
  end.

(** The cell of row [r] of [cy] under the label [c]. *)
Definition cell_at (cy : DataFrame) (r : list cell) (c : string) : cell :=
  match index_of c (columns cy) with
  | Some i => nth i r CNA
  | None => CNA
  end.

(** The feature rows handed to the model by a page, if any. *)
Definition page_inputs (pg : page) : option (list (list num)) :=
  match pg with
  | Predicted X _ _ => Some X
  | CalculationError X _ => Some X
  | _ => None
  end.

(** The third feature of the single row of a request. *)
Definition third_feature (X : list (list num)) : option num :=
  match X with
  | [row] => nth_error row 2
  | _ => None
  end.

(** A page on which the prediction logic ran. *)
Definition inference_ran (pg : result page) : bool :=
  match pg with
  | inr (Predicted _ _ _) => true
  | inr (CalculationError _ _) => true
  | _ => false
  end.

(** The rows of [cy] with the row [r] put in at position [k].  On the parsed
    cells of a sheet this comes before the columns get their types
    ([read_sheet] below). *)
Definition inject_row (k : nat) (r : list cell) (cy : DataFrame) : DataFrame :=
  {| columns := columns cy;
     rows := (take k (rows cy) ++ r :: drop k (rows cy))%list |}.

(** An outside world in which the download yields the one sheet [cy] under
    the expected name and the write goes through. *)
Definition dataset_env `{P : Platform} (cy : DataFrame) : Env :=
  {| download := inr [(dataset_name, inr cy)]; fault := None |}.

(** ** A small platform to run the model on concrete inputs *)

Module Sample.

(** A file holds a complete pickle stream of an object, or a stream that
    broke off. *)
Inductive stream :=
| Whole (v : pyobj)
| Truncated (v : pyobj).

Definition dumps (v : pyobj) : stream := Whole v.

Definition loads (b : stream) : result pyobj :=
  match b with
  | Whole v => inr v
  | Truncated _ => inl (UnpicklingError "pickle data was truncated")
  end.

Fixpoint float_of_pos (p : positive) : float :=
  match p with
  | xH => 1%float
  | xO p' => (2 * float_of_pos p')%float
  | xI p' => (2 * float_of_pos p' + 1)%float
  end.

Definition float_of_Z (z : Z) : float :=
  match z with
  | Z0 => 0%float
  | Zpos p => float_of_pos p
  | Zneg p => (- float_of_pos p)%float
  end.

Definition float_of_num (x : num) : float :=
  match x with
  | NInt z => float_of_Z z
  | NFloat f => f
  end.

Definition float_of_cell (c : cell) : result float :=
  match c with
  | CInt z => inr (float_of_Z z)
  | CFloat f => inr f
  | CStr _ => inl (ValueError "could not convert string to float")
  | CNA => inl (ValueError "Input contains NaN")
  end.

(** The intercept plus the products of coefficients and features, summed
    from the left. *)
Fixpoint decision (coef : list float) (x : list num) (acc : float) : float :=
  match coef, x with
  | c :: coef', v :: x' => decision coef' x' (acc + c * float_of_num v)%float
  | _, _ => acc
  end.

Definition predict (LR : LinearRegression) (X : list (list num)) : result (list float) :=
  if forallb (fun x => (length x =? length (coef_ LR))%nat) X
  then inr (map (fun x => decision (coef_ LR) x (intercept_ LR)) X)
  else inl (ValueError "X has a different number of features than the model").

(** A stand-in for the least-squares fit: the constant model through the
    first observation.  It rejects an empty table. *)
Definition fit (X : list (list cell)) (y : list cell) : result LinearRegression :=
  match X, y with
  | x :: _, t :: _ =>
      let! b := float_of_cell t in
      inr {| coef_ := map (fun _ => 0%float) x; intercept_ := b |}
  | _, _ => inl (ValueError "Found array with 0 sample(s)")
  end.

#[export] Instance platform : Platform := {|
  blob := stream;
  pickle_dumps := dumps;
  pickle_loads := loads;
  float_repr := fun _ => "float";
  LinearRegression_fit := fit;
  LinearRegression_predict := predict
|}.

Definition header : list string :=
  ["Rain Fall (mm)"; "Fertilizer"; "Temperatue"; "Nitrogen (N)";
   "Phosphorus (P)"; "Potassium (K)"; "Yeild (Q/acre)"].

(** Three observations with temperatures 28, 36 and 28. *)
Definition sheet : DataFrame := {|
  columns := header;
  rows := [ [CInt 1230; CInt 80; CInt 28; CInt 80; CInt 24; CInt 20; CInt 12];
            [CInt 480; CInt 60; CInt 36; CInt 70; CInt 20; CInt 18; CInt 8];
            [CInt 1250; CInt 75; CInt 28; CInt 78; CInt 22; CInt 19; CInt 11] ]
|}.

(** The same sheet with the temperature under the label [Temperature]. *)
Definition sheet_renamed : DataFrame := {|
  columns := ["Rain Fall (mm)"; "Fertilizer"; "Temperature"; "Nitrogen (N)";
              "Phosphorus (P)"; "Potassium (K)"; "Yeild (Q/acre)"];
  rows := rows sheet
|}.

(** A row without a yield. *)
Definition gap_row : list cell :=
  [CInt 900; CInt 70; CInt 31; CInt 75; CInt 21; CInt 18; CNA].

Definition env_ok : Env := dataset_env sheet.

Definition env_offline : Env :=
  {| download := inl (OSError "Network is unreachable"); fault := None |}.

Definition env_renamed : Env := dataset_env sheet_renamed.

Definition env_disk_full : Env :=
  {| download := inr [(dataset_name, inr sheet)];
     fault := Some (DumpFails (OSError "No space left on device") (Truncated PyNone)) |}.

Definition model : LinearRegression :=
  {| coef_ := [0; 0; 0; 0; 0; 0]%float; intercept_ := 12%float |}.

Definition form : Form := {|
  rain := 1200%float; temp_input := 28; fertilizer := 75%float;
  nitrogen := 80%float; phosphorus := 24%float; potassium := 20%float;
  predict_btn := true
|}.

Definition form31 : Form := {|
  rain := 1200%float; temp_input := 31; fertilizer := 75%float;
  nitrogen := 80%float; phosphorus := 24%float; potassium := 20%float;
  predict_btn := true
|}.

(** An artifact whose encoder object was never fitted. *)
Definition data_unfitted : pyobj :=
  PyDict {[ "model" := PyModel model; "encoder_temp" := PyEncoder LabelEncoder_new ]}.

(** An artifact that holds only the model. *)
Definition data_model_only : pyobj :=
  PyDict {[ "model" := PyModel model ]}.

(** The artifact that the first-time setup makes of [sheet]. *)
Definition data_sheet : pyobj :=
  PyDict {[ "model" := PyModel model;
            "encoder_temp" := PyEncoder {| classes_ := Some ["28"; "36"] |} ]}.

End Sample.


(** ** Shapes, requirements and traces *)

(** A table whose rows all hold one cell per column label. *)
Definition rectangular (cy : DataFrame) : Prop :=
  Forall (fun r => length r = length (columns cy)) (rows cy).

(** The seven labels that the setup reads from the cleaned table. *)
Definition required_columns : list string :=
  (feature_columns ++ [target_column])%list.

(** What [train] hands to the fit: the fitted encoder, the selected feature
    rows and the target column of the cleaned and encoded table. *)
Definition training_table `{P : Platform} (cy : DataFrame)
  : result (LabelEncoder * list (list cell) * list cell) :=
  let! enc := encode_temperature (dropna cy) in
  let! ind := getitems (snd enc) feature_columns in
  let! dep := getitem (snd enc) target_column in
  inr (fst enc, ind, dep).

(** The events of successive runs and the process they leave behind. *)
Fixpoint session_events `{P : Platform} (p : Process) (runs : list (Env * Form))
  : list event * Process :=
  match runs with
  | [] => ([], p)
  | (env, f) :: runs' =>
      let '(_, p', t) := run_script env f p in
      let '(t', p'') := session_events p' runs' in
      ((t ++ t')%list, p'')
  end.

(** How often the event [ev] occurs in a trace. *)
Definition occurrences (is_ev : event -> bool) (t : list event) : nat :=
  length (List.filter is_ev t).

Definition is_download (ev : event) : bool :=
  match ev with
  | DatasetDownload => true
  | _ => false
  end.

(** ** Column types at load time *)

(** The type that [pd.read_excel] gives a column of parsed cells: [int64]
    when every cell is an integer, [float64] when some cell is a float or is
    empty and none is a string, [object] when some cell is a string. *)
Inductive dtype :=
| Int64
| Float64
| Object.

Definition cell_dtype (c : cell) : dtype :=
  match c with
  | CInt _ => Int64
  | CFloat _ => Float64
  | CNA => Float64
  | CStr _ => Object
  end.

Definition dtype_join (a b : dtype) : dtype :=
  match a, b with
  | Object, _ => Object
  | _, Object => Object
  | Float64, _ => Float64
  | _, Float64 => Float64
  | Int64, Int64 => Int64
  end.

Definition column_dtype (col : list cell) : dtype :=
  fold_right (fun c d => dtype_join (cell_dtype c) d) Int64 col.

(** Column [j] of the rows. *)
Definition column_cells (j : nat) (rs : list (list cell)) : list cell :=
  map (fun r => nth j r CNA) rs.

(** The cell that a column of type [d] holds for the parsed cell [c]: an
    empty cell is NaN, and an integer in a [float64] column is converted by
    [float_of_int], numpy's conversion of an integer to a float. *)
Definition astype_cell (float_of_int : Z -> float) (d : dtype) (c : cell) : cell :=
  match c with
  | CNA => CFloat PrimFloat.nan
  | CInt z =>
      match d with
      | Float64 => CFloat (float_of_int z)
      | _ => CInt z
      end
  | _ => c
  end.

(** The row of the loaded table for the row [r] of the parsed [sheet]. *)
Definition retype_row (float_of_int : Z -> float) (sheet : DataFrame) (r : list cell)
  : list cell :=
  imap (fun j c =>
          astype_cell float_of_int (column_dtype (column_cells j (rows sheet))) c) r.

(** The table that [pd.read_excel] makes of the parsed cells of a sheet:
    every column gets its type, and the cells are converted to it. *)
Definition read_sheet (float_of_int : Z -> float) (sheet : DataFrame) : DataFrame :=
  {| columns := columns sheet;
     rows := map (retype_row float_of_int sheet) (rows sheet) |}.


(** The temperature label of the row [r] of a parsed sheet when the row is
    loaded as part of the sheet [loaded]: the string form of its cell in the
    temperature column, converted to the type that column gets. *)
Definition temperature_label `{P : Platform} (float_of_int : Z -> float)
    (loaded : DataFrame) (r : list cell) : string :=
  str_cell (cell_at loaded (retype_row float_of_int loaded r) temperature_column).



(** A platform whose float formatting is Python's on the temperatures of the
    sample sheet. *)
Module SampleFloat.

Definition repr (f : float) : string :=
  if PrimFloat.eqb f 28 then "28.0"
  else if PrimFloat.eqb f 36 then "36.0"
  else "float".

#[export] Instance platform : Platform := {|
  blob := Sample.stream;
  pickle_dumps := Sample.dumps;
  pickle_loads := Sample.loads;
  float_repr := repr;
  LinearRegression_fit := Sample.fit;
  LinearRegression_predict := Sample.predict
|}.

(** A row of the sheet with the temperature cell left empty. *)
Definition gap_row : list cell :=
  [CInt 900; CInt 70; CNA; CInt 75; CInt 21; CInt 18; CInt 9].

End SampleFloat.

Definition is_fit (ev : event) : bool :=
  match ev with
  | ModelFit => true
  | _ => false
  end.

Definition is_write (ev : event) : bool :=
  match ev with
  | ArtifactWrite => true
  | _ => false
  end.

(** The events that are calls to the outside (download, read, fit, write),
    as opposed to messages on the page. *)
Definition is_call (ev : event) : bool :=
  match ev with
  | DatasetDownload | ReadExcel _ | ModelFit | ArtifactWrite => true
  | _ => false
  end.

(** * Properties *)

(** ** Lists of labels and dictionaries *)

Lemma index_of_notin (s : string) (l : list string) :
  ~ In s l -> index_of s l = None.
Proof.
  induction l as [|x l IH]; simpl; intros Hnin.
  - reflexivity.
  - destruct (String.eqb_spec s x) as [->|Hne].
    + exfalso. apply Hnin. now left.
    + rewrite IH; [reflexivity |]. intros Hin. apply Hnin. now right.
Qed.

Lemma index_of_Some_In (s : string) (l : list string) (i : nat) :
  index_of s l = Some i -> In s l.
Proof.
  revert i. induction l as [|x l IH]; simpl; intros i Hi.
  - discriminate.
  - destruct (String.eqb_spec s x) as [->|Hne].
    + now left.
    + destruct (index_of s l) as [j|]; [| discriminate].
      right. now apply (IH j).
Qed.

Lemma index_of_In (s : string) (l : list string) :
  In s l -> exists i, index_of s l = Some i.
Proof.
  induction l as [|x l IH]; simpl; intros Hin.
  - contradiction.
  - destruct (String.eqb_spec s x) as [->|Hne].
    + now exists 0%nat.
    + destruct Hin as [Heq | Hin]; [congruence |].
      destruct (IH Hin) as [i ->]. now exists (S i).
Qed.

(** [np.unique] keeps exactly the labels it was given. *)
Lemma In_insert_label (s x : string) (l : list string) :
  In x (insert_label s l) <-> x = s \/ In x l.
Proof.
  induction l as [|a l IH]; simpl.
  - intuition congruence.
  - destruct (String.compare s a) eqn:E; simpl.
    + apply String.compare_eq_iff in E. subst a. intuition congruence.
    + intuition congruence.
    + rewrite IH. intuition congruence.
Qed.

Lemma In_np_unique (x : string) (y : list string) :
  In x (np_unique y) <-> In x y.
Proof.
  induction y as [|s y IH]; simpl.
  - tauto.
  - rewrite In_insert_label, IH. intuition congruence.
Qed.

(** A label of the training column gets, at inference, the code it had in
    training. *)
Lemma transform_after_fit (y : list string) (s : string) :
  In s y ->
  exists i,
    index_of s (np_unique y) = Some i /\
    transform (fst (fit_transform y)) [s] = inr [Z.of_nat i].
Proof.
  intros Hin. apply In_np_unique in Hin.
  destruct (index_of_In _ _ Hin) as [i Hi].
  exists i. split; [exact Hi |].
  unfold transform. simpl. now rewrite Hi.
Qed.

Lemma truthy_dict (d : gmap string pyobj) (k : string) (v : pyobj) :
  d !! k = Some v -> truthy (PyDict d) = true.
Proof.
  intros Hk. simpl. rewrite bool_decide_eq_false_2; [reflexivity |].
  intros ->. rewrite lookup_empty in Hk. discriminate.
Qed.

(** ** The temperature encoding block *)

Lemma final_temp_falsy (temp_encoder : pyobj) (t : Z) :
  truthy temp_encoder = false -> final_temp temp_encoder t = t.
Proof. intros H. unfold final_temp. now rewrite H. Qed.

Lemma final_temp_unfitted (t : Z) :
  final_temp (PyEncoder LabelEncoder_new) t = 0.
Proof. reflexivity. Qed.

Lemma final_temp_unseen (cs : list string) (t : Z) :
  ~ In (pretty t) cs ->
  final_temp (PyEncoder {| classes_ := Some cs |}) t = 0.
Proof.
  intros Hnin. unfold final_temp, py_transform, transform. simpl.
  now rewrite (index_of_notin _ _ Hnin).
Qed.

Lemma final_temp_seen (cs : list string) (t : Z) (i : nat) :
  index_of (pretty t) cs = Some i ->
  final_temp (PyEncoder {| classes_ := Some cs |}) t = Z.of_nat i.
Proof.
  intros Hi. unfold final_temp, py_transform, transform. simpl.
  now rewrite Hi.
Qed.

(** The same with the encoder as the setup fits it on the labels [y]. *)
Lemma final_temp_unseen_in_training (y : list string) (t : Z) :
  ~ In (pretty t) y ->
  final_temp (PyEncoder (fst (fit_transform y))) t = 0.
Proof.
  intros Hnin. apply final_temp_unseen. now rewrite In_np_unique.
Qed.

Lemma final_temp_seen_in_training (y : list string) (t : Z) :
  In (pretty t) y ->
  exists i,
    index_of (pretty t) (np_unique y) = Some i /\
    final_temp (PyEncoder (fst (fit_transform y))) t = Z.of_nat i.
Proof.
  intros Hin. destruct (transform_after_fit y _ Hin) as (i & Hi & _).
  exists i. split; [exact Hi |]. now apply final_temp_seen.
Qed.

Section Inference.
Context `{P : Platform}.

(** When the button is pressed on a dictionary with a model, the page is a
    prediction or a calculation error, on the row built from the widgets and
    the encoded temperature. *)
Lemma render_pressed (d : gmap string pyobj) (model : pyobj) (f : Form) :
  d !! "model" = Some model ->
  predict_btn f = true ->
  exists pg,
    render (PyDict d) f = inr pg /\
    page_inputs pg =
      Some (inputs f (final_temp (default PyNone (d !! "encoder_temp")) (temp_input f))).
Proof.
  intros Hm Hb. unfold render.
  rewrite (truthy_dict d _ _ Hm). simpl py_getitem. rewrite Hm.
  simpl. rewrite Hb.
  destruct (py_predict model _) as [e | [| y ys]]; simpl;
    eexists; split; reflexivity.
Qed.

(** C1 (as amended): when the loaded artifact carries no encoder, that is
    its [encoder_temp] entry is absent, [None] or otherwise false in an [if],
    the raw temperature input is the third feature of the row handed to the
    model, for every temperature input. *)
Theorem no_encoder_passes_raw_temperature
    (d : gmap string pyobj) (model : pyobj) (f : Form) :
  d !! "model" = Some model ->
  truthy (default PyNone (d !! "encoder_temp")) = false ->
  predict_btn f = true ->
  exists pg X,
    render (PyDict d) f = inr pg /\
    page_inputs pg = Some X /\
    X = inputs f (temp_input f) /\
    third_feature X = Some (NInt (temp_input f)).
Proof.
  intros Hm Henc Hb.
  destruct (render_pressed d model f Hm Hb) as (pg & Hpg & HX).
  rewrite (final_temp_falsy _ _ Henc) in HX.
  exists pg, (inputs f (temp_input f)). repeat split; assumption || reflexivity.
Qed.

(** C3: for a temperature input whose string form is not among the labels
    of the fitted encoder, the run does not raise and the row handed to the
    model carries the temperature code 0. *)
Theorem unseen_temperature_uses_code_zero
    (d : gmap string pyobj) (model : pyobj) (cs : list string) (f : Form) :
  d !! "model" = Some model ->
  d !! "encoder_temp" = Some (PyEncoder {| classes_ := Some cs |}) ->
  ~ In (pretty (temp_input f)) cs ->
  predict_btn f = true ->
  exists pg X,
    render (PyDict d) f = inr pg /\
    page_inputs pg = Some X /\
    X = inputs f 0 /\
    third_feature X = Some (NInt 0).
Proof.
  intros Hm Henc Hnin Hb.
  destruct (render_pressed d model f Hm Hb) as (pg & Hpg & HX).
  rewrite Henc in HX. simpl default in HX.
  rewrite (final_temp_unseen _ _ Hnin) in HX.
  exists pg, (inputs f 0). repeat split; assumption || reflexivity.
Qed.

End Inference.

(** ** The model provider *)

Lemma has_column_dropna (c : string) (cy : DataFrame) :
  has_column c (dropna cy) = has_column c cy.
Proof. reflexivity. Qed.

(** Selecting the feature columns needs the temperature column. *)
Lemma getitems_features_temperature (cy : DataFrame) (X : list (list cell)) :
  getitems cy feature_columns = inr X ->
  has_column temperature_column cy = true.
Proof.
  unfold getitems, feature_columns, has_column, temperature_column.
  simpl indices_of.
  destruct (index_of "Rain Fall (mm)" (columns cy)); simpl; [| discriminate].
  destruct (index_of "Fertilizer" (columns cy)); simpl; [| discriminate].
  destruct (index_of "Temperatue" (columns cy)); simpl; [reflexivity | discriminate].
Qed.

(** Without the temperature column the selection raises [KeyError] on one of
    the feature labels. *)
Lemma getitems_features_missing (cy : DataFrame) :
  has_column temperature_column cy = false ->
  exists c, In c feature_columns /\ getitems cy feature_columns = inl (KeyError c).
Proof.
  unfold getitems, feature_columns, has_column, temperature_column.
  simpl indices_of. intros Hc.
  destruct (index_of "Rain Fall (mm)" (columns cy)); simpl;
    [| eexists; split; [| reflexivity]; simpl; tauto].
  destruct (index_of "Fertilizer" (columns cy)); simpl;
    [| eexists; split; [| reflexivity]; simpl; tauto].
  destruct (index_of "Temperatue" (columns cy)); [discriminate |].
  eexists; split; [| reflexivity]; simpl; tauto.
Qed.

Lemma index_of_app_last (c : string) (l : list string) :
  index_of c (l ++ [c])%list <> None.
Proof.
  induction l as [|x l IH]; simpl.
  - now rewrite String.eqb_refl.
  - destruct (String.eqb c x); [discriminate |].
    destruct (index_of c (l ++ [c])%list); [discriminate | contradiction].
Qed.

(** After [cy[c] = vals] the table has the column [c]. *)
Lemma setitem_has_column (cy cy' : DataFrame) (c : string) (vals : list cell) :
  setitem cy c vals = inr cy' -> has_column c cy' = true.
Proof.
  unfold setitem, has_column.
  destruct (length vals =? length (rows cy))%nat; [| discriminate].
  destruct (index_of c (columns cy)) as [i|] eqn:E; intros [= <-]; simpl.
  - now rewrite E.
  - pose proof (index_of_app_last c (columns cy)) as Hl.
    destruct (index_of c (columns cy ++ [c])%list); [reflexivity | contradiction].
Qed.

Section Provider.
Context `{P : Platform}.

(** The encoder that comes out of step 3 is fitted exactly when the
    temperature column is there. *)
Lemma encode_temperature_absent (cy : DataFrame) :
  has_column temperature_column cy = false ->
  encode_temperature cy = inr (LabelEncoder_new, cy).
Proof. intros H. unfold encode_temperature. now rewrite H. Qed.

Lemma encode_temperature_fitted (cy cy' : DataFrame) (LE : LabelEncoder) :
  has_column temperature_column cy = true ->
  encode_temperature cy = inr (LE, cy') ->
  exists cs, LE = {| classes_ := Some cs |}.
Proof.
  intros H. unfold encode_temperature. rewrite H.
  destruct (getitem cy temperature_column) as [e|col]; simpl; [discriminate |].
  destruct (setitem cy temperature_column _) as [e|cy1]; simpl; [discriminate |].
  destruct (getitem cy1 temperature_column) as [e|col']; simpl; [discriminate |].
  destruct (setitem cy1 temperature_column _) as [e|cy2]; simpl; [discriminate |].
  intros [= <- _]. eexists; reflexivity.
Qed.

Lemma encode_temperature_columns (cy cy' : DataFrame) (LE : LabelEncoder) :
  encode_temperature cy = inr (LE, cy') ->
  has_column temperature_column cy' = has_column temperature_column cy.
Proof.
  unfold encode_temperature.
  destruct (has_column temperature_column cy) eqn:H.
  - destruct (getitem cy temperature_column) as [e|col]; simpl; [discriminate |].
    destruct (setitem cy temperature_column _) as [e|cy1]; simpl; [discriminate |].
    destruct (getitem cy1 temperature_column) as [e|col']; simpl; [discriminate |].
    destruct (setitem cy1 temperature_column _) as [e|cy2] eqn:E2; simpl; [discriminate |].
    intros [= _ <-].
    exact (setitem_has_column _ _ _ _ E2).
  - intros [= _ <-]. exact H.
Qed.

(** What [get_model_data] does when there is no artifact, in terms of the
    body of its [try] block. *)
Lemma get_model_data_absent (env : Env) (fs : gmap string blob) :
  fs !! filename = None ->
  get_model_data env fs =
    match first_time_setup env fs with
    | (inl e, fs1, t) =>
        (inr PyNone, fs1, (StatusWarning :: t ++ [InitializationError e])%list)
    | (inr data, fs1, t) => (inr data, fs1, StatusWarning :: t)
    end.
Proof.
  intros Hfs. unfold get_model_data. rewrite Hfs.
  unfold bind, try_except, emit, ret.
  destruct (first_time_setup env fs) as [[[e|data] fs1] t]; reflexivity.
Qed.

Lemma bind_emit {A} (ev : event) (k : unit -> Run A) (fs : gmap string blob) :
  exists r fs1 t, bind (emit ev) k fs = (r, fs1, ev :: t).
Proof.
  unfold bind, emit. destruct (k tt fs) as [[r fs1] t]. now exists r, fs1, t.
Qed.

(** The first thing the setup does is the download. *)
Lemma first_time_setup_starts (env : Env) (fs : gmap string blob) :
  exists r fs1 t, first_time_setup env fs = (r, fs1, DatasetDownload :: t).
Proof. unfold first_time_setup. apply bind_emit. Qed.

(** The two ways the setup can go: it raises before the write, touching no
    file, or it reaches the write with a fitted model and encoder, and the
    outcome is that of the write. *)
Lemma first_time_setup_cases (env : Env) (fs : gmap string blob) :
  (exists e t,
     first_time_setup env fs = (inl e, fs, t) /\ ~ In ArtifactWrite t)
  \/
  (exists dir cy LR cs,
     download env = inr dir /\
     read_excel dir (locate (map fst dir)) = inr cy /\
     has_column temperature_column cy = true /\
     let data :=
       PyDict {[ "model" := PyModel LR;
                 "encoder_temp" := PyEncoder {| classes_ := Some cs |} ]} in
     let t := [DatasetDownload; ReadExcel (locate (map fst dir)); ModelFit; ArtifactWrite] in
     first_time_setup env fs =
       match fault env with
       | None => (inr data, <[filename := pickle_dumps data]> fs, (t ++ [StatusSuccess])%list)
       | Some (OpenFails e) => (inl e, fs, t)
       | Some (DumpFails e written) => (inl e, <[filename := written]> fs, t)
       end).
Proof.
  unfold first_time_setup, train, bind, emit, lift, ret.
  destruct (download env) as [e|dir] eqn:Hd.
  { left. do 2 eexists. split; [reflexivity |]. simpl. intuition discriminate. }
  destruct (read_excel dir (locate (map fst dir))) as [e|cy] eqn:Hr.
  { left. do 2 eexists. split; [reflexivity |]. simpl. intuition discriminate. }
  destruct (encode_temperature (dropna cy)) as [e|[LE cy']] eqn:He.
  { left. do 2 eexists. split; [reflexivity |]. simpl. intuition discriminate. }
  simpl fst. simpl snd.
  destruct (getitems cy' feature_columns) as [e|ind] eqn:Hi.
  { left. do 2 eexists. split; [reflexivity |]. simpl. intuition discriminate. }
  destruct (getitem cy' target_column) as [e|dep] eqn:Hy.
  { left. do 2 eexists. split; [reflexivity |]. simpl. intuition discriminate. }
  destruct (LinearRegression_fit ind dep) as [e|LR] eqn:Hf.
  { left. do 2 eexists. split; [reflexivity |]. simpl. intuition discriminate. }
  right.
  assert (Hc : has_column temperature_column cy = true).
  { rewrite <- (has_column_dropna _ cy), <- (encode_temperature_columns _ _ _ He).
    exact (getitems_features_temperature _ _ Hi). }
  destruct (encode_temperature_fitted (dropna cy) cy' LE Hc He) as [cs ->].
  exists dir, cy, LR, cs. repeat split; try assumption.
  unfold write_artifact. simpl.
  destruct (fault env) as [[e|e written]|]; reflexivity.
Qed.

(** A failed setup makes [get_model_data] return [None] after showing the
    initialization error. *)
Lemma get_model_data_failure (env : Env) (fs fs1 : gmap string blob)
    (e : exn) (t : list event) :
  fs !! filename = None ->
  first_time_setup env fs = (inl e, fs1, t) ->
  get_model_data env fs =
    (inr PyNone, fs1, (StatusWarning :: t ++ [InitializationError e])%list).
Proof.
  intros Hfs Hs. rewrite (get_model_data_absent env fs Hfs). now rewrite Hs.
Qed.

(** Once [None] is in the cache, no run shows the form. *)
Lemma session_without_model (fs : gmap string blob) (runs : list (Env * Form)) :
  Forall (fun pg => pg = inr NoForm)
    (session {| cache := Some PyNone; files := fs |} runs).
Proof.
  induction runs as [|[env f] runs IH]; simpl.
  - constructor.
  - constructor; [reflexivity | exact IH].
Qed.

(** *** The named causes of a failed setup *)

Lemma setup_fails_on_download (env : Env) (fs : gmap string blob) (e : exn) :
  download env = inl e ->
  first_time_setup env fs = (inl e, fs, [DatasetDownload]).
Proof.
  intros H. unfold first_time_setup, bind, emit, lift. now rewrite H.
Qed.

Lemma setup_fails_on_file (env : Env) (fs : gmap string blob)
    (dir : directory) (e : exn) :
  download env = inr dir ->
  read_excel dir (locate (map fst dir)) = inl e ->
  first_time_setup env fs =
    (inl e, fs, [DatasetDownload; ReadExcel (locate (map fst dir))]).
Proof.
  intros Hd Hr. unfold first_time_setup, bind, emit, lift. rewrite Hd.
  simpl. now rewrite Hr.
Qed.

Lemma setup_fails_on_columns (env : Env) (fs : gmap string blob)
    (dir : directory) (cy cy' : DataFrame) (LE : LabelEncoder) (e : exn) :
  download env = inr dir ->
  read_excel dir (locate (map fst dir)) = inr cy ->
  encode_temperature (dropna cy) = inr (LE, cy') ->
  getitems cy' feature_columns = inl e ->
  first_time_setup env fs =
    (inl e, fs, [DatasetDownload; ReadExcel (locate (map fst dir))]).
Proof.
  intros Hd Hr He Hi. unfold first_time_setup, train, bind, emit, lift.
  rewrite Hd. simpl. rewrite Hr. simpl. rewrite He. simpl. now rewrite Hi.
Qed.

Lemma setup_fails_on_fit (env : Env) (fs : gmap string blob)
    (dir : directory) (cy cy' : DataFrame) (LE : LabelEncoder)
    (ind : list (list cell)) (dep : list cell) (e : exn) :
  download env = inr dir ->
  read_excel dir (locate (map fst dir)) = inr cy ->
  encode_temperature (dropna cy) = inr (LE, cy') ->
  getitems cy' feature_columns = inr ind ->
  getitem cy' target_column = inr dep ->
  LinearRegression_fit ind dep = inl e ->
  first_time_setup env fs =
    (inl e, fs, [DatasetDownload; ReadExcel (locate (map fst dir)); ModelFit]).
Proof.
  intros Hd Hr He Hi Hy Hf. unfold first_time_setup, train, bind, emit, lift.
  rewrite Hd. simpl. rewrite Hr. simpl. rewrite He. simpl. rewrite Hi. simpl.
  rewrite Hy. simpl. now rewrite Hf.
Qed.

(** *** Claims on the provider *)

(** C2 (as amended): during first-time setup, if the column [Temperatue] is
    absent from the loaded dataset, the encoding is skipped and the encoder
    stays unfitted, but the selection of the feature columns then raises
    [KeyError]: no fit is attempted, the provider shows the initialization
    error, returns [None] and writes no file. *)
Theorem missing_temperature_column_fails_setup
    (env : Env) (fs : gmap string blob) (dir : directory) (cy : DataFrame) :
  fs !! filename = None ->
  download env = inr dir ->
  read_excel dir (locate (map fst dir)) = inr cy ->
  has_column temperature_column cy = false ->
  encode_temperature (dropna cy) = inr (LabelEncoder_new, dropna cy) /\
  exists c,
    In c feature_columns /\
    get_model_data env fs =
      (inr PyNone, fs,
       [StatusWarning; DatasetDownload; ReadExcel (locate (map fst dir));
        InitializationError (KeyError c)]).
Proof.
  intros Hfs Hd Hr Hc.
  assert (He : encode_temperature (dropna cy) = inr (LabelEncoder_new, dropna cy)).
  { apply encode_temperature_absent. now rewrite has_column_dropna. }
  split; [exact He |].
  destruct (getitems_features_missing (dropna cy)) as (c & Hin & Hk).
  { now rewrite has_column_dropna. }
  exists c. split; [exact Hin |].
  rewrite (get_model_data_failure env fs fs (KeyError c)
             [DatasetDownload; ReadExcel (locate (map fst dir))] Hfs);
    [reflexivity |].
  exact (setup_fails_on_columns env fs dir cy _ _ _ Hd Hr He Hk).
Qed.

(** C5: when the first-time setup fails, whatever raised, the provider shows
    the initialization error and returns [None], and no run of the script in
    this process reaches the form or the prediction logic. *)
Theorem setup_failure_disables_inference
    (env : Env) (fs fs1 : gmap string blob) (e : exn) (t : list event) :
  fs !! filename = None ->
  first_time_setup env fs = (inl e, fs1, t) ->
  get_model_data env fs =
    (inr PyNone, fs1, (StatusWarning :: t ++ [InitializationError e])%list) /\
  forall (f : Form) (runs : list (Env * Form)),
    Forall (fun pg => pg = inr NoForm /\ inference_ran pg = false)
      (session {| cache := None; files := fs |} ((env, f) :: runs)).
Proof.
  intros Hfs Hs.
  pose proof (get_model_data_failure env fs fs1 e t Hfs Hs) as Hg.
  split; [exact Hg |].
  intros f runs. simpl. unfold run_script. simpl cache. simpl files.
  rewrite Hg. simpl.
  constructor; [split; reflexivity |].
  eapply Forall_impl; [apply session_without_model |].
  intros pg ->. split; reflexivity.
Qed.

(** C6: when the artifact file exists, the provider returns what
    [pickle.load] makes of it, unchecked, and nothing of the training path
    runs: no message, no download, no fit, no write. *)
Theorem existing_artifact_is_loaded_directly
    (env : Env) (fs : gmap string blob) (b : blob) :
  fs !! filename = Some b ->
  get_model_data env fs = (pickle_loads b, fs, []).
Proof.
  intros Hfs. unfold get_model_data. now rewrite Hfs.
Qed.

(** A run that returns a true value ran the whole setup and wrote the
    pickle of that value. *)
Lemma get_model_data_success (env : Env) (fs fs1 : gmap string blob)
    (data : pyobj) (t : list event) :
  fs !! filename = None ->
  get_model_data env fs = (inr data, fs1, t) ->
  truthy data = true ->
  fs1 = <[filename := pickle_dumps data]> fs.
Proof.
  intros Hfs Hg Ht. rewrite (get_model_data_absent env fs Hfs) in Hg.
  destruct (first_time_setup_cases env fs)
    as [(e & t0 & Hs & _) | (dir & cy & LR & cs & _ & _ & _ & Hs)].
  - rewrite Hs in Hg. injection Hg as <- _ _. discriminate.
  - simpl in Hs. rewrite Hs in Hg.
    destruct (fault env) as [[e|e written]|].
    + injection Hg as <- _ _. discriminate.
    + injection Hg as <- _ _. discriminate.
    + injection Hg as <- <- _. reflexivity.
Qed.

(** C7: after a successful first-time setup, a fresh process that starts on
    the files left behind loads the very pair that the setup returned,
    provided [pickle.load] undoes [pickle.dump]; so for every request it
    shows the same page, with the same prediction, as the process that
    trained. *)
Theorem persisted_artifact_round_trip
    (env : Env) (fs fs1 : gmap string blob) (data : pyobj) (t : list event) :
  (forall v, pickle_loads (pickle_dumps v) = inr v) ->
  fs !! filename = None ->
  get_model_data env fs = (inr data, fs1, t) ->
  truthy data = true ->
  forall (env1 env2 : Env) (f : Form),
    get_model_data env1 fs1 = (inr data, fs1, []) /\
    fst (fst (run_script env1 f {| cache := None; files := fs1 |})) =
    fst (fst (run_script env2 f {| cache := Some data; files := fs1 |})).
Proof.
  intros Hrt Hfs Hg Ht env1 env2 f.
  pose proof (get_model_data_success env fs fs1 data t Hfs Hg Ht) as ->.
  assert (Hl : get_model_data env1 (<[filename := pickle_dumps data]> fs) =
               (inr data, <[filename := pickle_dumps data]> fs, [])).
  { unfold get_model_data. rewrite lookup_insert_eq. unfold lift. now rewrite Hrt. }
  split; [exact Hl |].
  unfold run_script. simpl cache. simpl files. now rewrite Hl.
Qed.


(** C9: the write of the artifact is reached only when the dataset had the
    column [Temperatue], and the pair handed to the write holds a fitted
    encoder; when the write goes through, the file holds the pickle of that
    pair and the provider returns it.  An artifact with an unfitted encoder
    is never written. *)
Theorem persisted_artifact_has_fitted_encoder
    (env : Env) (fs fs1 : gmap string blob) (r : result pyobj) (t : list event) :
  fs !! filename = None ->
  get_model_data env fs = (r, fs1, t) ->
  In ArtifactWrite t ->
  exists dir cy LR cs,
    download env = inr dir /\
    read_excel dir (locate (map fst dir)) = inr cy /\
    has_column temperature_column cy = true /\
    let data :=
      PyDict {[ "model" := PyModel LR;
                "encoder_temp" := PyEncoder {| classes_ := Some cs |} ]} in
    (r, fs1 !! filename) =
      match fault env with
      | None => (inr data, Some (pickle_dumps data))
      | Some (OpenFails _) => (inr PyNone, None)
      | Some (DumpFails _ written) => (inr PyNone, Some written)
      end.
Proof.
  intros Hfs Hg Hw. rewrite (get_model_data_absent env fs Hfs) in Hg.
  destruct (first_time_setup_cases env fs)
    as [(e & t0 & Hs & Hn) | (dir & cy & LR & cs & Hd & Hr & Hc & Hs)].
  - exfalso. rewrite Hs in Hg. injection Hg as _ _ <-.
    destruct Hw as [Hw | Hw]; [discriminate |].
    apply in_app_or in Hw as [Hw | [Hw | []]]; [now apply Hn | discriminate].
  - exists dir, cy, LR, cs. repeat split; try assumption.
    simpl in Hs. rewrite Hs in Hg. clear Hs. simpl.
    destruct (fault env) as [[e|e written]|]; injection Hg as <- <- _.
    + now rewrite Hfs.
    + now rewrite lookup_insert_eq.
    + now rewrite lookup_insert_eq.
Qed.

(** C10 (as amended): on an initialization failure that is not a failure of
    [pickle.dump] on the opened file (so: download, file location, reading,
    column selection, fitting, or opening the file for writing), no artifact
    file is created: the files are as before, and a subsequent fresh process
    start takes the first-time setup path again, beginning with the
    download. *)
Theorem failure_before_dump_leaves_no_artifact
    (env : Env) (fs fs1 : gmap string blob) (t : list event) :
  fs !! filename = None ->
  (forall e written, fault env <> Some (DumpFails e written)) ->
  get_model_data env fs = (inr PyNone, fs1, t) ->
  fs1 = fs /\
  fs1 !! filename = None /\
  forall env' : Env,
    exists r fs2 t',
      get_model_data env' fs1 = (r, fs2, StatusWarning :: DatasetDownload :: t').
Proof.
  intros Hfs Hnd Hg.
  assert (Heq : fs1 = fs).
  { rewrite (get_model_data_absent env fs Hfs) in Hg.
    destruct (first_time_setup_cases env fs)
      as [(e & t0 & Hs & _) | (dir & cy & LR & cs & _ & _ & _ & Hs)].
    - rewrite Hs in Hg. now injection Hg as <- _.
    - simpl in Hs. rewrite Hs in Hg.
      destruct (fault env) as [[e|e written]|] eqn:Hfault.
      + now injection Hg as <- _.
      + exfalso. exact (Hnd e written eq_refl).
      + injection Hg as Hd _ _. discriminate. }
  subst fs1. repeat split; [exact Hfs |].
  intros env'. rewrite (get_model_data_absent env' fs Hfs).
  destruct (first_time_setup_starts env' fs) as (r & fs2 & t' & ->).
  destruct r as [e|data]; repeat eexists.
Qed.

End Provider.

(** * The claims on concrete inputs *)

#[local] Existing Instance Sample.platform.

(** The sample sheet, end to end. *)
Example sample_encoding :
  fit_transform ["28"; "36"; "28"] = ({| classes_ := Some ["28"; "36"] |}, [0; 1; 0]).
Proof. reflexivity. Qed.

Example sample_labels_sorted :
  np_unique ["5"; "10"; "36"; "10"] = ["10"; "36"; "5"].
Proof. reflexivity. Qed.

Example sample_fallback_file :
  locate ["readme.txt"; "yield.xlsx"; "other.xlsx"] = "yield.xlsx".
Proof. vm_compute. reflexivity. Qed.

Example sample_setup :
  get_model_data Sample.env_ok ∅ =
    (inr Sample.data_sheet,
     {[ filename := Sample.Whole Sample.data_sheet ]},
     [StatusWarning; DatasetDownload; ReadExcel dataset_name; ModelFit;
      ArtifactWrite; StatusSuccess]).
Proof. vm_compute. reflexivity. Qed.

Example sample_seen_temperature :
  final_temp (PyEncoder {| classes_ := Some ["28"; "36"] |}) 36 = 1.
Proof. vm_compute. reflexivity. Qed.

(** C1, as stated, fails: with an artifact whose encoder object was never
    fitted, [transform] raises, the bare [except] takes over, and the third
    feature for the temperature input 28 is the code 0, not 28. *)
Lemma unfitted_encoder_gives_code_zero :
  render Sample.data_unfitted Sample.form =
    inr (Predicted (inputs Sample.form 0) 12 true) /\
  temp_input Sample.form = 28 /\
  third_feature (inputs Sample.form 0) = Some (NInt 0) /\
  third_feature (inputs Sample.form 0) <> Some (NInt (temp_input Sample.form)).
Proof.
  repeat split; try (vm_compute; reflexivity).
  simpl. intros H. discriminate H.
Qed.

Lemma no_encoder_passes_raw_temperature_witness :
  exists pg X,
    @render Sample.platform Sample.data_model_only Sample.form = inr pg /\
    page_inputs pg = Some X /\
    X = inputs Sample.form 28 /\
    third_feature X = Some (NInt 28).
Proof.
  apply (no_encoder_passes_raw_temperature (P := Sample.platform)
           {[ "model" := PyModel Sample.model ]} (PyModel Sample.model) Sample.form);
    vm_compute; reflexivity.
Defined.

(** C2, as stated, fails: on a sheet that has the temperature under another
    label, the setup ends in [KeyError] and the provider returns [None];
    nothing is fitted and nothing is written. *)
Lemma renamed_temperature_column_gives_no_model :
  has_column temperature_column Sample.sheet_renamed = false /\
  get_model_data Sample.env_renamed ∅ =
    (inr PyNone, ∅,
     [StatusWarning; DatasetDownload; ReadExcel dataset_name;
      InitializationError (KeyError "Temperatue")]).
Proof. split; vm_compute; reflexivity. Qed.

Lemma missing_temperature_column_fails_setup_witness :
  encode_temperature (dropna Sample.sheet_renamed) =
    inr (LabelEncoder_new, dropna Sample.sheet_renamed) /\
  exists c,
    In c feature_columns /\
    get_model_data Sample.env_renamed ∅ =
      (inr PyNone, ∅,
       [StatusWarning; DatasetDownload; ReadExcel dataset_name;
        InitializationError (KeyError c)]).
Proof.
  apply (missing_temperature_column_fails_setup Sample.env_renamed ∅
           [(dataset_name, inr Sample.sheet_renamed)] Sample.sheet_renamed);
    vm_compute; reflexivity.
Defined.

Lemma unseen_temperature_uses_code_zero_witness :
  exists pg X,
    @render Sample.platform Sample.data_sheet Sample.form31 = inr pg /\
    page_inputs pg = Some X /\
    X = inputs Sample.form31 0 /\
    third_feature X = Some (NInt 0).
Proof.
  apply (unseen_temperature_uses_code_zero (P := Sample.platform)
           {[ "model" := PyModel Sample.model;
              "encoder_temp" := PyEncoder {| classes_ := Some ["28"; "36"] |} ]}
           (PyModel Sample.model) ["28"; "36"] Sample.form31).
  - vm_compute. reflexivity.
  - vm_compute. reflexivity.
  - vm_compute. intros [H | [H | []]]; discriminate H.
  - reflexivity.
Defined.

Lemma setup_failure_disables_inference_witness :
  get_model_data Sample.env_offline ∅ =
    (inr PyNone, ∅,
     [StatusWarning; DatasetDownload;
      InitializationError (OSError "Network is unreachable")]) /\
  forall (f : Form) (runs : list (Env * Form)),
    Forall (fun pg => pg = inr NoForm /\ inference_ran pg = false)
      (session {| cache := None; files := ∅ |} ((Sample.env_offline, f) :: runs)).
Proof.
  apply (setup_failure_disables_inference Sample.env_offline ∅ ∅
           (OSError "Network is unreachable") [DatasetDownload]);
    vm_compute; reflexivity.
Defined.

Lemma existing_artifact_is_loaded_directly_witness :
  get_model_data Sample.env_offline {[ filename := Sample.Whole Sample.data_unfitted ]} =
    (inr Sample.data_unfitted, {[ filename := Sample.Whole Sample.data_unfitted ]}, []).
Proof.
  apply (existing_artifact_is_loaded_directly Sample.env_offline
           {[ filename := Sample.Whole Sample.data_unfitted ]}
           (Sample.Whole Sample.data_unfitted)).
  vm_compute. reflexivity.
Defined.

Lemma persisted_artifact_round_trip_witness :
  get_model_data Sample.env_offline {[ filename := Sample.Whole Sample.data_sheet ]} =
    (inr Sample.data_sheet, {[ filename := Sample.Whole Sample.data_sheet ]}, []) /\
  fst (fst (run_script Sample.env_offline Sample.form
              {| cache := None;
                 files := {[ filename := Sample.Whole Sample.data_sheet ]} |})) =
  fst (fst (run_script Sample.env_ok Sample.form
              {| cache := Some Sample.data_sheet;
                 files := {[ filename := Sample.Whole Sample.data_sheet ]} |})).
Proof.
  apply (persisted_artifact_round_trip Sample.env_ok ∅
           {[ filename := Sample.Whole Sample.data_sheet ]} Sample.data_sheet
           [StatusWarning; DatasetDownload; ReadExcel dataset_name; ModelFit;
            ArtifactWrite; StatusSuccess]).
  - intros v. reflexivity.
  - vm_compute. reflexivity.
  - vm_compute. reflexivity.
  - vm_compute. reflexivity.
Defined.

Lemma persisted_artifact_has_fitted_encoder_witness :
  exists dir cy LR cs,
    download Sample.env_ok = inr dir /\
    read_excel dir (locate (map fst dir)) = inr cy /\
    has_column temperature_column cy = true /\
    let data :=
      PyDict {[ "model" := PyModel LR;
                "encoder_temp" := PyEncoder {| classes_ := Some cs |} ]} in
    ((inr Sample.data_sheet : result pyobj),
     ({[ filename := Sample.Whole Sample.data_sheet ]} : gmap string blob) !! filename) =
      (inr data, Some (pickle_dumps data)).
Proof.
  apply (persisted_artifact_has_fitted_encoder Sample.env_ok ∅
           {[ filename := Sample.Whole Sample.data_sheet ]} (inr Sample.data_sheet)
           [StatusWarning; DatasetDownload; ReadExcel dataset_name; ModelFit;
            ArtifactWrite; StatusSuccess]).
  - vm_compute. reflexivity.
  - vm_compute. reflexivity.
  - simpl. tauto.
Defined.

(** C10, as stated, fails: when [pickle.dump] raises on the opened file,
    the setup has failed and [None] is returned, yet the artifact file exists
    with what was written so far; the next process start finds it and tries
    to load it instead of setting up again. *)
Lemma failed_dump_leaves_an_artifact :
  get_model_data Sample.env_disk_full ∅ =
    (inr PyNone,
     {[ filename := Sample.Truncated PyNone ]},
     [StatusWarning; DatasetDownload; ReadExcel dataset_name; ModelFit;
      ArtifactWrite; InitializationError (OSError "No space left on device")]) /\
  ({[ filename := Sample.Truncated PyNone ]} : gmap string blob) !! filename <> None /\
  get_model_data Sample.env_ok {[ filename := Sample.Truncated PyNone ]} =
    (inl (UnpicklingError "pickle data was truncated"),
     {[ filename := Sample.Truncated PyNone ]}, []).
Proof.
  repeat split; try (vm_compute; reflexivity).
  vm_compute. intros H. discriminate H.
Qed.

Lemma failure_before_dump_leaves_no_artifact_witness :
  (∅ : gmap string blob) = ∅ /\
  (∅ : gmap string blob) !! filename = None /\
  forall env' : Env,
    exists r fs2 t',
      get_model_data env' ∅ = (r, fs2, StatusWarning :: DatasetDownload :: t').
Proof.
  apply (failure_before_dump_leaves_no_artifact Sample.env_offline ∅ ∅
           [StatusWarning; DatasetDownload;
            InitializationError (OSError "Network is unreachable")]).
  - vm_compute. reflexivity.
  - intros e written. vm_compute. discriminate.
  - vm_compute. reflexivity.
Defined.

(** * Further properties of the code *)

(** ** Locating the spreadsheet *)

Lemma substring_skip (p s : string) (m : nat) :
  substring (String.length p) m (p ++ s) = substring 0 m s.
Proof. induction p as [|a p IH]; simpl; [reflexivity | exact IH]. Qed.

Lemma substring_all (s : string) : substring 0 (String.length s) s = s.
Proof. induction s as [|a s IH]; simpl; [reflexivity | now rewrite IH]. Qed.

Lemma string_length_app (p s : string) :
  String.length (p ++ s) = (String.length p + String.length s)%nat.
Proof. induction p as [|a p IH]; simpl; [reflexivity | now rewrite IH]. Qed.

Lemma substring_split (k : nat) (s : string) :
  (k <= String.length s)%nat ->
  s = substring 0 k s ++ substring k (String.length s - k) s.
Proof.
  revert k. induction s as [|a s IH]; intros [|k] Hk; simpl in *.
  - reflexivity.
  - lia.
  - now rewrite substring_all.
  - change (String a s =
            String a (substring 0 k s ++ substring k (String.length s - k) s)).
    f_equal. apply IH. lia.
Qed.

(** X1: [endswith] holds exactly of the strings that are some stem followed
    by the suffix. *)
Theorem endswith_iff_suffix (s suffix : string) :
  endswith s suffix = true <-> exists stem, s = stem ++ suffix.
Proof.
  unfold endswith. split.
  - intros H. apply andb_prop in H as [Hle Heq].
    apply Nat.leb_le in Hle. apply String.eqb_eq in Heq.
    exists (substring 0 (String.length s - String.length suffix) s).
    pose proof (substring_split (String.length s - String.length suffix) s) as Hs.
    replace (String.length s - (String.length s - String.length suffix))%nat
      with (String.length suffix) in Hs by lia.
    rewrite Heq in Hs. apply Hs. lia.
  - intros [stem ->]. rewrite string_length_app.
    apply andb_true_intro. split; [apply Nat.leb_le; lia |].
    replace (String.length stem + String.length suffix - String.length suffix)%nat
      with (String.length stem) by lia.
    rewrite substring_skip, substring_all. apply String.eqb_refl.
Qed.

Lemma first_xlsx_spec (names : list string) :
  match first_xlsx names with
  | Some f =>
      exists pre post,
        names = (pre ++ f :: post)%list /\
        endswith f ".xlsx" = true /\
        Forall (fun g => endswith g ".xlsx" = false) pre
  | None => Forall (fun g => endswith g ".xlsx" = false) names
  end.
Proof.
  induction names as [|g names IH]; simpl.
  - constructor.
  - destruct (endswith g ".xlsx") eqn:Hg.
    + exists [], names. repeat split; [exact Hg | constructor].
    + destruct (first_xlsx names) as [f|].
      * destruct IH as (pre & post & -> & Hf & Hpre).
        exists (g :: pre), post. repeat split; [exact Hf | now constructor].
      * now constructor.
Qed.

(** The file handed to [pd.read_excel] is the expected sheet whenever the
    directory lists it; otherwise it is the first entry, in listing order,
    whose name ends in [.xlsx]; and when there is no such entry it is the
    expected name all the same. *)
Lemma locate_cases (names : list string) :
  (In dataset_name names /\ locate names = dataset_name) \/
  (~ In dataset_name names /\
   exists pre f post,
     names = (pre ++ f :: post)%list /\
     endswith f ".xlsx" = true /\
     Forall (fun g => endswith g ".xlsx" = false) pre /\
     locate names = f) \/
  (~ In dataset_name names /\
   Forall (fun g => endswith g ".xlsx" = false) names /\
   locate names = dataset_name).
Proof.
  unfold locate.
  destruct (decide (dataset_name ∈ names)) as [Hin | Hnin].
  - left. rewrite bool_decide_eq_true_2 by exact Hin.
    split; [now apply list_elem_of_In | reflexivity].
  - right. rewrite bool_decide_eq_false_2 by exact Hnin.
    assert (Hn : ~ In dataset_name names) by now rewrite <- list_elem_of_In.
    pose proof (first_xlsx_spec names) as Hx.
    destruct (first_xlsx names) as [f|].
    + left. destruct Hx as (pre & post & Hnames & Hf & Hpre).
      split; [exact Hn |]. now exists pre, f, post.
    + right. repeat split; assumption.
Qed.

Lemma read_excel_absent (dir : directory) (name : string) :
  ~ In name (map fst dir) ->
  read_excel dir name = inl (FileNotFoundError name).
Proof.
  induction dir as [|[f r] dir IH]; simpl; intros Hnin.
  - reflexivity.
  - destruct (String.eqb_spec name f) as [->|Hne].
    + exfalso. apply Hnin. now left.
    + apply IH. intros Hin. apply Hnin. now right.
Qed.

Lemma Forall_not_xlsx_notin (names : list string) (f : string) :
  Forall (fun g => endswith g ".xlsx" = false) names ->
  endswith f ".xlsx" = true ->
  ~ In f names.
Proof.
  intros Hall Hf Hin. rewrite Forall_forall in Hall.
  apply list_elem_of_In in Hin. specialize (Hall f Hin). congruence.
Qed.

Section Acquisition.
Context `{P : Platform}.

(** After a download, the next step is the read of the located file. *)
Lemma first_time_setup_reads (env : Env) (fs : gmap string blob) (dir : directory) :
  download env = inr dir ->
  exists r fs1 t,
    first_time_setup env fs =
      (r, fs1, DatasetDownload :: ReadExcel (locate (map fst dir)) :: t).
Proof.
  intros Hd. unfold first_time_setup.
  unfold bind at 1. unfold emit at 1.
  unfold bind at 1. unfold lift at 1. rewrite Hd.
  unfold bind at 1. unfold emit at 1.
  destruct (bind _ _ fs) as [[r fs1] t].
  now exists r, fs1, t.
Qed.

(** X2: when the directory lists the expected sheet, that sheet is the file
    the setup reads, right after the download, whatever else the directory
    holds and in whatever order. *)
Theorem expected_sheet_takes_precedence
    (env : Env) (fs : gmap string blob) (dir : directory) :
  download env = inr dir ->
  In dataset_name (map fst dir) ->
  locate (map fst dir) = dataset_name /\
  exists r fs1 t,
    first_time_setup env fs =
      (r, fs1, DatasetDownload :: ReadExcel dataset_name :: t).
Proof.
  intros Hd Hin.
  assert (Hl : locate (map fst dir) = dataset_name).
  { destruct (locate_cases (map fst dir))
      as [[_ H] | [(Hn & _) | (Hn & _)]]; [exact H | contradiction | contradiction]. }
  split; [exact Hl |].
  destruct (first_time_setup_reads env fs dir Hd) as (r & fs1 & t & Hs).
  rewrite Hl in Hs. now exists r, fs1, t.
Qed.

(** X3: when the downloaded directory holds neither the expected sheet nor
    any entry ending in [.xlsx], the setup asks for the expected name, the
    read raises [FileNotFoundError], and the provider returns [None] without
    touching a file. *)
Theorem no_spreadsheet_fails_setup
    (env : Env) (fs : gmap string blob) (dir : directory) :
  fs !! filename = None ->
  download env = inr dir ->
  ~ In dataset_name (map fst dir) ->
  Forall (fun g => endswith g ".xlsx" = false) (map fst dir) ->
  get_model_data env fs =
    (inr PyNone, fs,
     [StatusWarning; DatasetDownload; ReadExcel dataset_name;
      InitializationError (FileNotFoundError dataset_name)]).
Proof.
  intros Hfs Hd Hnin Hall.
  assert (Hl : locate (map fst dir) = dataset_name).
  { destruct (locate_cases (map fst dir))
      as [[_ H] | [(_ & pre & f & post & Hn & Hf & _ & _) | (_ & _ & H)]];
      try exact H.
    exfalso. apply (Forall_not_xlsx_notin _ f Hall Hf).
    rewrite Hn. apply in_or_app. right. now left. }
  pose proof (setup_fails_on_file env fs dir (FileNotFoundError dataset_name) Hd) as Hs.
  rewrite Hl in Hs. specialize (Hs (read_excel_absent dir dataset_name Hnin)).
  now rewrite (get_model_data_failure env fs fs _ _ Hfs Hs).
Qed.

(** X4: when the expected sheet is not listed, the first entry ending in
    [.xlsx] is the file that the setup reads, right after the download. *)
Theorem fallback_reads_first_xlsx
    (env : Env) (fs : gmap string blob) (dir : directory)
    (pre post : list string) (f : string) :
  download env = inr dir ->
  ~ In dataset_name (map fst dir) ->
  map fst dir = (pre ++ f :: post)%list ->
  endswith f ".xlsx" = true ->
  Forall (fun g => endswith g ".xlsx" = false) pre ->
  locate (map fst dir) = f /\
  exists r fs1 t,
    first_time_setup env fs = (r, fs1, DatasetDownload :: ReadExcel f :: t).
Proof.
  intros Hd Hnin Hnames Hf Hpre.
  assert (Hl : locate (map fst dir) = f).
  { destruct (locate_cases (map fst dir))
      as [[Hin _] | [(_ & pre' & f' & post' & Hn & Hf' & Hpre' & Hl) | (_ & Hall & _)]].
    - contradiction.
    - rewrite Hl. rewrite Hnames in Hn.
      pose proof (Forall_not_xlsx_notin pre f' Hpre Hf') as N1.
      pose proof (Forall_not_xlsx_notin pre' f Hpre' Hf) as N2.
      clear - Hn N1 N2. revert pre' Hn N2.
      induction pre as [|a pre IH]; intros [|b pre'] Hn N2; simpl in *.
      + now injection Hn.
      + injection Hn as -> _. exfalso. apply N2. now left.
      + injection Hn as -> _. exfalso. apply N1. now left.
      + injection Hn as -> Hn. apply (IH (fun H => N1 (or_intror H)) pre' Hn).
        intros H. apply N2. now right.
    - exfalso. apply (Forall_not_xlsx_notin _ f Hall Hf).
      rewrite Hnames. apply in_or_app. right. now left. }
  split; [exact Hl |].
  destruct (first_time_setup_reads env fs dir Hd) as (r & fs1 & t & Hs).
  rewrite Hl in Hs. now exists r, fs1, t.
Qed.

End Acquisition.

(** ** Cleaning and encoding the table *)

Lemma complete_row_true (r : list cell) :
  complete_row r = true <-> Forall (fun c => isna c = false) r.
Proof.
  unfold complete_row. rewrite forallb_forall, Forall_forall.
  split; intros H c Hc.
  - apply list_elem_of_In in Hc. specialize (H c Hc).
    now destruct (isna c).
  - apply list_elem_of_In in Hc. now rewrite (H c Hc).
Qed.

Lemma filter_idem {A} (Q : A -> Prop) `{!forall x, Decision (Q x)} (l : list A) :
  filter Q (filter Q l) = filter Q l.
Proof.
  induction l as [|a l IH]; [reflexivity |].
  rewrite filter_cons. destruct (decide (Q a)) as [Ha | Ha].
  - rewrite filter_cons_True by exact Ha. now rewrite IH.
  - exact IH.
Qed.

(** X5: [dropna] keeps the labels, keeps exactly the rows without a missing
    cell, in their order, and cleaning a cleaned table changes nothing. *)
Theorem dropna_keeps_complete_rows (cy : DataFrame) :
  columns (dropna cy) = columns cy /\
  (forall r,
     In r (rows (dropna cy)) <->
     In r (rows cy) /\ Forall (fun c => isna c = false) r) /\
  sublist (rows (dropna cy)) (rows cy) /\
  dropna (dropna cy) = dropna cy.
Proof.
  split; [reflexivity |]. split; [| split].
  - intros r. unfold dropna. simpl.
    rewrite <- !list_elem_of_In, list_elem_of_filter, complete_row_true. tauto.
  - apply sublist_filter.
  - unfold dropna. simpl. f_equal. apply filter_idem.
Qed.

Lemma index_of_lt (c : string) (l : list string) (i : nat) :
  index_of c l = Some i -> (i < length l)%nat.
Proof.
  revert i. induction l as [|x l IH]; simpl; intros i Hi; [discriminate |].
  destruct (String.eqb c x).
  - injection Hi as <-. lia.
  - destruct (index_of c l) as [j|]; [| discriminate].
    injection Hi as <-. specialize (IH j eq_refl). lia.
Qed.

Lemma index_of_lookup (c : string) (l : list string) (i : nat) :
  index_of c l = Some i -> l !! i = Some c.
Proof.
  revert i. induction l as [|x l IH]; simpl; intros i Hi; [discriminate |].
  destruct (String.eqb_spec c x) as [->|Hne].
  - now injection Hi as <-.
  - destruct (index_of c l) as [j|]; [| discriminate].
    injection Hi as <-. simpl. now apply IH.
Qed.

(** Writing a column twice is writing the second one. *)
Lemma zip_insert_twice (i : nat) (rs : list (list cell)) (vs ws : list cell) :
  length vs = length rs ->
  zip_with (fun r v => <[i := v]> r) (zip_with (fun r v => <[i := v]> r) rs vs) ws =
  zip_with (fun r v => <[i := v]> r) rs ws.
Proof.
  revert vs ws. induction rs as [|r rs IH]; intros [|v vs] [|w ws] Hl;
    simpl in *; try reflexivity; try discriminate.
  rewrite list_insert_insert_eq. f_equal. apply IH. lia.
Qed.

(** Reading column [i] after writing it gives what was written, when the
    rows are long enough. *)
Lemma zip_insert_read (i : nat) (rs : list (list cell)) (vs : list cell) :
  length vs = length rs ->
  Forall (fun r => (i < length r)%nat) rs ->
  map (fun r => nth i r CNA) (zip_with (fun r v => <[i := v]> r) rs vs) = vs.
Proof.
  revert vs. induction rs as [|r rs IH]; intros [|v vs] Hl Hall;
    simpl in *; try reflexivity; try discriminate.
  inversion Hall as [|? ? Hr Hrs]; subst.
  rewrite nth_lookup, list_lookup_insert_eq by exact Hr. simpl.
  f_equal. apply IH; [lia | exact Hrs].
Qed.

(** Reading another column after writing column [i] gives the old column. *)
Lemma zip_insert_read_other (i j : nat) (rs : list (list cell)) (vs : list cell) :
  length vs = length rs ->
  i <> j ->
  map (fun r => nth j r CNA) (zip_with (fun r v => <[i := v]> r) rs vs) =
  map (fun r => nth j r CNA) rs.
Proof.
  revert vs. induction rs as [|r rs IH]; intros [|v vs] Hl Hij;
    simpl in *; try reflexivity; try discriminate.
  rewrite !nth_lookup, list_lookup_insert_ne by exact Hij.
  f_equal. apply IH; [lia | exact Hij].
Qed.

Section Encoding.
Context `{P : Platform}.

(** The labels read back after [astype(str)] are the string forms of the
    original cells. *)
Lemma astype_str_labels (i : nat) (rs : list (list cell)) :
  map str_cell
    (map (fun r => nth i r CNA)
       (zip_with (fun r v => <[i := v]> r) rs
          (map (fun c => CStr (str_cell c)) (map (fun r => nth i r CNA) rs)))) =
  map (fun r => str_cell (nth i r CNA)) rs.
Proof.
  induction rs as [|r rs IH]; simpl; [reflexivity |].
  f_equal; [| exact IH].
  destruct (decide (i < length r)%nat) as [Hlt | Hge].
  - rewrite (nth_lookup (<[i := _]> r)), list_lookup_insert_eq by exact Hlt.
    reflexivity.
  - rewrite list_insert_ge by lia. reflexivity.
Qed.

(** Step 3 in closed form, when the temperature column is at position [i]:
    the encoder is fitted on the string forms of the column's cells, and the
    column is overwritten with their codes. *)
Lemma encode_temperature_present (cy : DataFrame) (i : nat) :
  index_of temperature_column (columns cy) = Some i ->
  let labels := map (fun r => str_cell (nth i r CNA)) (rows cy) in
  encode_temperature cy =
    inr (fst (fit_transform labels),
         {| columns := columns cy;
            rows := zip_with (fun r v => <[i := v]> r) (rows cy)
                      (map CInt (snd (fit_transform labels))) |}).
Proof.
  intros Hi labels. unfold encode_temperature, has_column. rewrite Hi.
  unfold getitem at 1. rewrite Hi. simpl rbind.
  unfold setitem at 1. rewrite !length_map, Nat.eqb_refl, Hi. simpl rbind.
  unfold getitem at 1. simpl columns. rewrite Hi. simpl rbind. simpl rows.
  rewrite astype_str_labels. fold labels.
  unfold setitem. simpl rows. simpl columns.
  rewrite length_zip_with_l_eq by now rewrite !length_map.
  assert (Hc : length (map CInt (snd (fit_transform labels))) = length (rows cy)).
  { unfold fit_transform, labels. simpl. now rewrite !length_map. }
  unfold fit_transform in Hc. simpl in Hc.
  rewrite Hc, Nat.eqb_refl, Hi. simpl rbind.
  rewrite zip_insert_twice by now rewrite !length_map.
  reflexivity.
Qed.

(** X6: the encoding step never raises; it keeps the labels and the number
    of rows, and it leaves every column other than the temperature column as
    it was. *)
Theorem encode_temperature_keeps_other_columns (cy : DataFrame) :
  exists LE cy',
    encode_temperature cy = inr (LE, cy') /\
    columns cy' = columns cy /\
    length (rows cy') = length (rows cy) /\
    forall c, c = temperature_column \/ getitem cy' c = getitem cy c.
Proof.
  destruct (index_of temperature_column (columns cy)) as [i|] eqn:Hi.
  - pose proof (encode_temperature_present cy i Hi) as He. cbv zeta in He.
    do 2 eexists. split; [exact He |]. cbn [columns rows].
    assert (Hc : forall y : list string,
               length (map CInt (snd (fit_transform y))) = length y).
    { intros y. unfold fit_transform. cbn [snd]. now rewrite !length_map. }
    split; [reflexivity |]. split.
    + rewrite length_zip_with_l_eq; [reflexivity |].
      now rewrite Hc, length_map.
    + intros c. destruct (String.eqb_spec c temperature_column) as [-> | Hne];
        [now left | right].
      unfold getitem. cbn [columns rows].
      destruct (index_of c (columns cy)) as [j|] eqn:Hj; [| reflexivity].
      f_equal. apply zip_insert_read_other.
      * now rewrite Hc, length_map.
      * intros ->. apply Hne.
        apply index_of_lookup in Hi, Hj. congruence.
  - exists LabelEncoder_new, cy. split.
    + apply encode_temperature_absent. unfold has_column. now rewrite Hi.
    + repeat split. intros c. now right.
Qed.

End Encoding.

(** ** The table handed to the fit *)

Lemma lookup_map {A B} (f : A -> B) (l : list A) (k : nat) :
  map f l !! k = f <$> (l !! k).
Proof.
  revert k. induction l as [|a l IH]; intros [|k]; simpl; try reflexivity.
  apply IH.
Qed.

Lemma indices_of_lt (cs cols : list string) (idxs : list nat) :
  indices_of cs cols = inr idxs ->
  Forall (fun j => (j < length cols)%nat) idxs.
Proof.
  revert idxs. induction cs as [|c cs IH]; simpl; intros idxs H.
  - injection H as <-. constructor.
  - destruct (index_of c cols) as [j|] eqn:Hj; [| discriminate].
    destruct (indices_of cs cols) as [e|js]; simpl in H; [discriminate |].
    injection H as <-. constructor; [now apply index_of_lt in Hj | now apply IH].
Qed.

(** A failed selection names an absent label of the selection. *)
Lemma indices_of_error (cs cols : list string) (e : exn) :
  indices_of cs cols = inl e ->
  exists c, e = KeyError c /\ In c cs /\ index_of c cols = None.
Proof.
  induction cs as [|c cs IH]; simpl; intros H; [discriminate |].
  destruct (index_of c cols) as [j|] eqn:Hj.
  - destruct (indices_of cs cols) as [e'|js]; simpl in H; [| discriminate].
    injection H as <-. destruct (IH eq_refl) as (c' & -> & Hin & Hc').
    exists c'. repeat split; [now right | exact Hc'].
  - injection H as <-. exists c. repeat split; [now left | exact Hj].
Qed.

(** The selected feature rows, cell by cell. *)
Lemma getitems_features_rows (cy : DataFrame) (ind : list (list cell)) :
  getitems cy feature_columns = inr ind ->
  ind = map (fun r => map (fun q => cell_at cy r (column_of q)) feature_order)
          (rows cy).
Proof.
  unfold getitems, feature_columns. simpl indices_of.
  destruct (index_of "Rain Fall (mm)" (columns cy)) as [i1|] eqn:E1; simpl; [| discriminate].
  destruct (index_of "Fertilizer" (columns cy)) as [i2|] eqn:E2; simpl; [| discriminate].
  destruct (index_of "Temperatue" (columns cy)) as [i3|] eqn:E3; simpl; [| discriminate].
  destruct (index_of "Nitrogen (N)" (columns cy)) as [i4|] eqn:E4; simpl; [| discriminate].
  destruct (index_of "Phosphorus (P)" (columns cy)) as [i5|] eqn:E5; simpl; [| discriminate].
  destruct (index_of "Potassium (K)" (columns cy)) as [i6|] eqn:E6; simpl; [| discriminate].
  intros [= <-]. apply map_ext. intros r. unfold cell_at. simpl column_of.
  now rewrite E1, E2, E3, E4, E5, E6.
Qed.

(** Rows of full length without a missing cell stay so when a column is
    overwritten with values that are not missing. *)
Lemma zip_insert_clean (n i : nat) (rs : list (list cell)) (vs : list cell) :
  Forall (fun r => length r = n /\ Forall (fun c => isna c = false) r) rs ->
  Forall (fun c => isna c = false) vs ->
  Forall (fun r => length r = n /\ Forall (fun c => isna c = false) r)
    (zip_with (fun r v => <[i := v]> r) rs vs).
Proof.
  revert vs. induction rs as [|r rs IH]; intros [|v vs] Hrs Hvs; simpl;
    try constructor.
  - inversion Hrs as [|? ? [Hl Hr] _]; subst.
    inversion Hvs as [|? ? Hv _]; subst.
    split; [now rewrite length_insert | now apply Forall_insert].
  - inversion Hrs; subst. inversion Hvs; subst. now apply IH.
Qed.

Lemma nth_clean (j : nat) (r : list cell) :
  (j < length r)%nat ->
  Forall (fun c => isna c = false) r ->
  isna (nth j r CNA) = false.
Proof.
  intros Hj Hr. rewrite Forall_forall in Hr. apply Hr.
  apply list_elem_of_In. now apply nth_In.
Qed.

Section Training.
Context `{P : Platform}.

(** [train] is the fit applied to the training table. *)
Lemma train_training_table (cy : DataFrame) (fs : gmap string blob) :
  train cy fs =
    match training_table cy with
    | inl e => (inl e, fs, [])
    | inr (LE, ind, dep) =>
        match LinearRegression_fit ind dep with
        | inl e => (inl e, fs, [ModelFit])
        | inr LR => (inr (LR, LE), fs, [ModelFit])
        end
    end.
Proof.
  unfold train, training_table, bind, lift, emit, ret.
  destruct (encode_temperature (dropna cy)) as [e|[LE cy']]; simpl; [reflexivity |].
  destruct (getitems cy' feature_columns) as [e|ind]; simpl; [reflexivity |].
  destruct (getitem cy' target_column) as [e|dep]; simpl; [reflexivity |].
  destruct (LinearRegression_fit ind dep) as [e|LR]; reflexivity.
Qed.

(** The training table in closed form: the encoder fitted on the string
    forms of the temperature cells of the cleaned rows, and the cleaned rows
    with that column overwritten by the codes. *)
Lemma training_table_inv (cy : DataFrame) (LE : LabelEncoder)
    (ind : list (list cell)) (dep : list cell) :
  training_table cy = inr (LE, ind, dep) ->
  exists i,
    index_of temperature_column (columns cy) = Some i /\
    let labels := map (fun r => str_cell (nth i r CNA)) (rows (dropna cy)) in
    let cy' :=
      {| columns := columns cy;
         rows := zip_with (fun r v => <[i := v]> r) (rows (dropna cy))
                   (map CInt (snd (fit_transform labels))) |} in
    LE = fst (fit_transform labels) /\
    getitems cy' feature_columns = inr ind /\
    getitem cy' target_column = inr dep.
Proof.
  unfold training_table.
  destruct (encode_temperature (dropna cy)) as [e|[LE' cy']] eqn:He;
    simpl; [discriminate |].
  destruct (getitems cy' feature_columns) as [e|ind'] eqn:Hi; simpl; [discriminate |].
  destruct (getitem cy' target_column) as [e|dep'] eqn:Hy; simpl; [discriminate |].
  intros [= <- <- <-].
  pose proof (getitems_features_temperature _ _ Hi) as Hc.
  rewrite (encode_temperature_columns _ _ _ He) in Hc.
  unfold has_column in Hc. simpl columns in Hc.
  destruct (index_of temperature_column (columns cy)) as [i|] eqn:Hidx;
    [| discriminate].
  exists i. split; [reflexivity |].
  pose proof (encode_temperature_present (dropna cy) i Hidx) as Hp.
  cbv zeta in Hp. rewrite Hp in He. injection He as <- <-.
  cbv zeta. repeat split; assumption.
Qed.

End Training.

Section FeatureOrder.
Context `{P : Platform}.

(** C4: training and inference use one feature order.  The table that
    [train] hands to the fit has, in every row, the cells of the columns for
    rainfall, fertilizer, temperature (code), nitrogen, phosphorus and
    potassium in this order; and for every request the row that the script
    hands to [predict] has the values of the same six quantities in the same
    order, the temperature as transformed by [final_temp]. *)
Theorem feature_order_matches_training :
  feature_columns = map column_of feature_order /\
  length feature_order = 6%nat /\
  (forall (cy : DataFrame) (fs : gmap string blob),
     train cy fs =
       match encode_temperature (dropna cy) with
       | inl e => (inl e, fs, [])
       | inr (LE, cy') =>
           match getitems cy' feature_columns with
           | inl e => (inl e, fs, [])
           | inr _ =>
               match getitem cy' target_column with
               | inl e => (inl e, fs, [])
               | inr _ =>
                   match
                     LinearRegression_fit
                       (map (fun r =>
                               map (fun q => cell_at cy' r (column_of q)) feature_order)
                          (rows cy'))
                       (map (fun r => cell_at cy' r target_column) (rows cy'))
                   with
                   | inl e => (inl e, fs, [ModelFit])
                   | inr LR => (inr (LR, LE), fs, [ModelFit])
                   end
               end
           end
       end) /\
  (forall (d : gmap string pyobj) (f : Form),
     render (PyDict d) f =
       match d !! "model" with
       | None => if bool_decide (d = ∅) then inr NoForm else inl (KeyError "model")
       | Some model =>
           if predict_btn f then
             let X :=
               [map (request_value f
                       (final_temp (default PyNone (d !! "encoder_temp")) (temp_input f)))
                  feature_order] in
             match py_predict model X with
             | inr (yield_val :: _) =>
                 inr (Predicted X yield_val (PrimFloat.ltb 10 yield_val))
             | inr [] => inr (CalculationError X IndexError)
             | inl e => inr (CalculationError X e)
             end
           else inr FormOnly
       end).
Proof.
  split; [reflexivity |]. split; [reflexivity |]. split.
  - intros cy fs. unfold train, bind, lift, emit, ret.
    destruct (encode_temperature (dropna cy)) as [e|[LE cy']]; [reflexivity |].
    cbn [fst snd].
    destruct (getitems cy' feature_columns) as [e|ind] eqn:Hi; [reflexivity |].
    destruct (getitem cy' target_column) as [e|dep] eqn:Hy; [reflexivity |].
    apply getitems_features_rows in Hi. subst ind.
    unfold getitem in Hy.
    assert (Hdep : dep = map (fun r => cell_at cy' r target_column) (rows cy')).
    { unfold cell_at.
      destruct (index_of target_column (columns cy')) as [j|]; [| discriminate].
      now injection Hy as <-. }
    rewrite <- Hdep.
    destruct (LinearRegression_fit _ dep) as [e|LR]; reflexivity.
  - intros d f. unfold render.
    destruct (d !! "model") as [model|] eqn:Hm.
    + rewrite (truthy_dict d _ _ Hm). simpl py_getitem. rewrite Hm.
      cbn [rbind py_get].
      destruct (predict_btn f); [| reflexivity].
      cbv zeta. unfold inputs.
      change [NFloat (rain f); NFloat (fertilizer f);
              NInt (final_temp (default PyNone (d !! "encoder_temp")) (temp_input f));
              NFloat (nitrogen f); NFloat (phosphorus f); NFloat (potassium f)]
        with (map (request_value f
                     (final_temp (default PyNone (d !! "encoder_temp")) (temp_input f)))
                feature_order).
      destruct (py_predict model _) as [e|[|y ys]]; reflexivity.
    + simpl truthy. destruct (bool_decide (d = ∅)); simpl; [reflexivity |].
      now rewrite Hm.
Qed.

End FeatureOrder.

Section TrainingTable.
Context `{P : Platform}.

Lemma length_codes (y : list string) :
  length (map CInt (snd (fit_transform y))) = length y.
Proof. unfold fit_transform. cbn [snd]. now rewrite !length_map. Qed.

Lemma dropna_rows_clean (cy : DataFrame) :
  rectangular cy ->
  Forall (fun r => length r = length (columns cy) /\
                   Forall (fun c => isna c = false) r)
    (rows (dropna cy)).
Proof.
  intros Hrect. unfold dropna. cbn [rows].
  apply Forall_forall. intros r Hr.
  apply list_elem_of_filter in Hr as [Hc Hin].
  unfold rectangular in Hrect. rewrite Forall_forall in Hrect.
  split; [now apply Hrect | now apply complete_row_true].
Qed.

(** X7: on a table whose rows have one cell per label, the feature rows and
    the target handed to the fit hold no missing value, and there is one
    feature row and one target value for each row without a missing cell. *)
Theorem training_table_has_no_missing_value
    (cy : DataFrame) (LE : LabelEncoder) (ind : list (list cell)) (dep : list cell) :
  rectangular cy ->
  training_table cy = inr (LE, ind, dep) ->
  Forall (Forall (fun c => isna c = false)) ind /\
  Forall (fun c => isna c = false) dep /\
  length ind = length (rows (dropna cy)) /\
  length dep = length (rows (dropna cy)).
Proof.
  intros Hrect Ht.
  destruct (training_table_inv cy LE ind dep Ht) as (i & Hi & _ & Hind & Hdep).
  cbv zeta in Hind, Hdep.
  set (labels := map (fun r => str_cell (nth i r CNA)) (rows (dropna cy))) in *.
  set (rs := zip_with (fun r v => <[i := v]> r) (rows (dropna cy))
               (map CInt (snd (fit_transform labels)))) in *.
  assert (Hrs : Forall (fun r => length r = length (columns cy) /\
                                 Forall (fun c => isna c = false) r) rs).
  { apply zip_insert_clean; [now apply dropna_rows_clean |].
    apply Forall_forall. intros c Hc.
    apply list_elem_of_In, in_map_iff in Hc as (z & <- & _). reflexivity. }
  assert (Hlen : length rs = length (rows (dropna cy))).
  { unfold rs. apply length_zip_with_l_eq.
    unfold labels. now rewrite length_codes, length_map. }
  rewrite Forall_forall in Hrs.
  unfold getitems in Hind. cbn [columns rows] in Hind.
  destruct (indices_of feature_columns (columns cy)) as [e|idxs] eqn:Hidx;
    simpl in Hind; [discriminate |].
  injection Hind as <-.
  pose proof (indices_of_lt _ _ _ Hidx) as Hlt. rewrite Forall_forall in Hlt.
  unfold getitem in Hdep. cbn [columns rows] in Hdep.
  destruct (index_of target_column (columns cy)) as [j|] eqn:Hj; [| discriminate].
  injection Hdep as <-. apply index_of_lt in Hj.
  repeat split.
  - apply Forall_forall. intros x Hx.
    apply list_elem_of_In, in_map_iff in Hx as (r & <- & Hr).
    apply list_elem_of_In in Hr. destruct (Hrs r Hr) as [Hl Hc].
    apply Forall_forall. intros c Hcin.
    apply list_elem_of_In, in_map_iff in Hcin as (k & <- & Hk).
    apply nth_clean; [| exact Hc].
    rewrite Hl. apply Hlt. now apply list_elem_of_In.
  - apply Forall_forall. intros c Hcin.
    apply list_elem_of_In, in_map_iff in Hcin as (r & <- & Hr).
    apply list_elem_of_In in Hr. destruct (Hrs r Hr) as [Hl Hc].
    apply nth_clean; [now rewrite Hl | exact Hc].
  - now rewrite length_map.
  - now rewrite length_map.
Qed.

(** X8: the temperature feature that the model saw for a training row is
    the one that inference computes for the same temperature: when row [k]
    of the cleaned table holds the integer [t] in the temperature column, the
    third entry of feature row [k] is the code [final_temp] gives for the
    input [t] with the fitted encoder. *)
Theorem training_code_is_inference_code
    (cy : DataFrame) (LE : LabelEncoder) (ind : list (list cell)) (dep : list cell)
    (k : nat) (r : list cell) (t : Z) :
  training_table cy = inr (LE, ind, dep) ->
  rows (dropna cy) !! k = Some r ->
  length r = length (columns cy) ->
  cell_at cy r temperature_column = CInt t ->
  exists x,
    ind !! k = Some x /\
    x !! 2%nat = Some (CInt (final_temp (PyEncoder LE) t)).
Proof.
  intros Ht Hk Hl Hcell.
  destruct (training_table_inv cy LE ind dep Ht) as (i & Hi & HLE & Hind & _).
  cbv zeta in HLE, Hind.
  set (labels := map (fun r => str_cell (nth i r CNA)) (rows (dropna cy))) in *.
  unfold cell_at in Hcell. rewrite Hi in Hcell.
  assert (Hlab : labels !! k = Some (pretty t)).
  { unfold labels. rewrite lookup_map, Hk. simpl. now rewrite Hcell. }
  assert (Hin : In (pretty t) labels).
  { apply list_elem_of_In. eapply list_elem_of_lookup_2. exact Hlab. }
  destruct (final_temp_seen_in_training labels t Hin) as (c & Hc & Hft).
  rewrite <- HLE in Hft.
  apply getitems_features_rows in Hind. cbn [rows] in Hind.
  exists (map (fun q =>
            cell_at {| columns := columns cy;
                       rows := zip_with (fun r v => <[i := v]> r) (rows (dropna cy))
                                 (map CInt (snd (fit_transform labels))) |}
              (<[i := CInt (Z.of_nat c)]> r) (column_of q)) feature_order).
  split.
  - rewrite Hind, lookup_map, lookup_zip_with, Hk. simpl.
    unfold fit_transform. cbn [snd].
    rewrite !lookup_map, Hlab. simpl. now rewrite Hc.
  - simpl. unfold cell_at. cbn [columns].
    change "Temperatue" with temperature_column. rewrite Hi.
    rewrite nth_lookup, list_lookup_insert_eq.
    + simpl. now rewrite Hft.
    + rewrite Hl. now apply index_of_lt in Hi.
Qed.

End TrainingTable.

(** ** The temperature feature at inference *)

(** X9: with a fitted encoder, a temperature whose string form is among the
    labels gets a code below the number of labels, and two such temperatures
    with the same code are the same temperature. *)
Theorem seen_temperatures_get_distinct_codes (cs : list string) (t1 t2 : Z) :
  In (pretty t1) cs ->
  In (pretty t2) cs ->
  0 <= final_temp (PyEncoder {| classes_ := Some cs |}) t1 < Z.of_nat (length cs) /\
  (final_temp (PyEncoder {| classes_ := Some cs |}) t1 =
   final_temp (PyEncoder {| classes_ := Some cs |}) t2 -> t1 = t2).
Proof.
  intros H1 H2.
  destruct (index_of_In _ _ H1) as [i1 Hi1].
  destruct (index_of_In _ _ H2) as [i2 Hi2].
  rewrite (final_temp_seen cs t1 i1 Hi1), (final_temp_seen cs t2 i2 Hi2).
  split.
  - pose proof (index_of_lt _ _ _ Hi1). lia.
  - intros Heq. apply Nat2Z.inj in Heq. subst i2.
    apply index_of_lookup in Hi1, Hi2.
    apply (inj pretty). congruence.
Qed.

(** ** Pages and processes *)

Section Pages.
Context `{P : Platform}.


(** With a value in the cache a run is the rendering of that value; it
    shows no provider message and touches no file. *)
Lemma session_cached (data : pyobj) (fs : gmap string blob)
    (runs : list (Env * Form)) :
  session {| cache := Some data; files := fs |} runs =
    map (fun run => render data (snd run)) runs /\
  session_events {| cache := Some data; files := fs |} runs =
    ([], {| cache := Some data; files := fs |}).
Proof.
  induction runs as [|[env f] runs [IH1 IH2]]; simpl; [split; reflexivity |].
  rewrite IH1, IH2. split; reflexivity.
Qed.

(** X12: an artifact that unpickles to a non-empty dictionary without a
    [model] entry is loaded and cached as it is; every run of the process
    then raises [KeyError] on [data["model"]], and the artifact is neither
    checked nor replaced. *)
Theorem artifact_without_model_raises_every_run
    (fs : gmap string blob) (b : blob) (d : gmap string pyobj)
    (runs : list (Env * Form)) :
  fs !! filename = Some b ->
  pickle_loads b = inr (PyDict d) ->
  d <> ∅ ->
  d !! "model" = None ->
  Forall (fun pg => pg = inl (KeyError "model"))
    (session {| cache := None; files := fs |} runs) /\
  fst (session_events {| cache := None; files := fs |} runs) = [] /\
  files (snd (session_events {| cache := None; files := fs |} runs)) = fs.
Proof.
  intros Hfs Hl Hne Hm.
  assert (Hr : forall f, render (PyDict d) f = inl (KeyError "model")).
  { intros f. unfold render. simpl truthy.
    rewrite bool_decide_eq_false_2 by exact Hne. simpl. now rewrite Hm. }
  destruct runs as [|[env f] runs]; simpl; [repeat split; constructor |].
  unfold run_script. cbn [cache files].
  unfold get_model_data. rewrite Hfs. unfold lift. rewrite Hl.
  destruct (session_cached (PyDict d) fs runs) as [H1 H2].
  rewrite H1, H2. repeat split.
  constructor; [apply Hr |].
  apply Forall_forall. intros pg Hpg.
  apply list_elem_of_In, in_map_iff in Hpg as (run & <- & _). apply Hr.
Qed.

(** X13: an artifact file that [pickle.load] rejects makes every run of the
    process raise that exception: nothing catches it, nothing is cached, the
    file stays, and the training path is never taken. *)
Theorem corrupt_artifact_raises_every_run
    (fs : gmap string blob) (b : blob) (e : exn) (runs : list (Env * Form)) :
  fs !! filename = Some b ->
  pickle_loads b = inl e ->
  Forall (fun pg => pg = inl e) (session {| cache := None; files := fs |} runs) /\
  session_events {| cache := None; files := fs |} runs =
    ([], {| cache := None; files := fs |}).
Proof.
  intros Hfs Hl.
  induction runs as [|[env f] runs [IH1 IH2]]; simpl; [split; [constructor | reflexivity] |].
  unfold run_script. cbn [cache files].
  unfold get_model_data. rewrite Hfs. unfold lift. rewrite Hl.
  rewrite IH2. split; [| reflexivity].
  constructor; [reflexivity | exact IH1].
Qed.

(** X14: [get_model_data] lets an exception escape only on the load path:
    the artifact file exists and [pickle.load] raised it; the files are then
    untouched and nothing was shown. *)
Theorem get_model_data_raises_only_on_load
    (env : Env) (fs fs1 : gmap string blob) (e : exn) (t : list event) :
  get_model_data env fs = (inl e, fs1, t) ->
  exists b,
    fs !! filename = Some b /\
    pickle_loads b = inl e /\
    fs1 = fs /\
    t = [].
Proof.
  intros Hg. destruct (fs !! filename) as [b|] eqn:Hfs.
  - unfold get_model_data in Hg. rewrite Hfs in Hg. unfold lift in Hg.
    injection Hg as Hl <- <-. now exists b.
  - rewrite (get_model_data_absent env fs Hfs) in Hg.
    destruct (first_time_setup env fs) as [[[e'|data] fs2] t2]; discriminate.
Qed.

(** X19: once the artifact file exists, no run of a process writes a file,
    and none makes a download, a read of a sheet, a fit or a write, whatever
    the file holds, whatever is cached, whatever the outside world does and
    however many runs follow: the artifact is never retrained or replaced. *)
Theorem existing_artifact_is_never_rewritten
    (p : Process) (b : blob) (runs : list (Env * Form)) :
  files p !! filename = Some b ->
  Forall (fun ev => is_call ev = false) (fst (session_events p runs)) /\
  files (snd (session_events p runs)) = files p.
Proof.
  intros Hb.
  assert (H : fst (session_events p runs) = [] /\
              files (snd (session_events p runs)) = files p).
  { revert p Hb.
    induction runs as [|[env f] runs IH]; intros [c fs] Hb; simpl;
      [split; reflexivity |].
    cbn [files] in Hb. unfold run_script. cbn [cache files].
    destruct c as [data|].
    - destruct (session_cached data fs runs) as [_ H2]. rewrite H2.
      split; reflexivity.
    - unfold get_model_data. rewrite Hb. unfold lift.
      destruct (pickle_loads b) as [e|data].
      + specialize (IH {| cache := None; files := fs |} Hb).
        destruct (session_events {| cache := None; files := fs |} runs) as [t p'].
        exact IH.
      + destruct (session_cached data fs runs) as [_ H2]. rewrite H2.
        split; reflexivity. }
  destruct H as [-> H2]. split; [constructor | exact H2].
Qed.

End Pages.

(** ** The first-time setup, stage by stage *)

Lemma indices_of_present (cs cols : list string) (idxs : list nat) (c : string) :
  indices_of cs cols = inr idxs -> In c cs -> index_of c cols <> None.
Proof.
  revert idxs. induction cs as [|c' cs IH]; simpl; intros idxs H Hin; [contradiction |].
  destruct (index_of c' cols) as [j|] eqn:Hj; [| discriminate].
  destruct (indices_of cs cols) as [e|js]; simpl in H; [discriminate |].
  destruct Hin as [-> | Hin]; [now rewrite Hj | now apply (IH js)].
Qed.

Section Stages.
Context `{P : Platform}.

(** The setup in closed form: which stage raises decides the outcome. *)
Lemma first_time_setup_stages (env : Env) (fs : gmap string blob) :
  first_time_setup env fs =
    match download env with
    | inl e => (inl e, fs, [DatasetDownload])
    | inr dir =>
        let file := locate (map fst dir) in
        match read_excel dir file with
        | inl e => (inl e, fs, [DatasetDownload; ReadExcel file])
        | inr cy =>
            match training_table cy with
            | inl e => (inl e, fs, [DatasetDownload; ReadExcel file])
            | inr (LE, ind, dep) =>
                match LinearRegression_fit ind dep with
                | inl e => (inl e, fs, [DatasetDownload; ReadExcel file; ModelFit])
                | inr LR =>
                    let data :=
                      PyDict {[ "model" := PyModel LR; "encoder_temp" := PyEncoder LE ]} in
                    let t := [DatasetDownload; ReadExcel file; ModelFit; ArtifactWrite] in
                    match fault env with
                    | None =>
                        (inr data, <[filename := pickle_dumps data]> fs,
                         (t ++ [StatusSuccess])%list)
                    | Some (OpenFails e) => (inl e, fs, t)
                    | Some (DumpFails e written) =>
                        (inl e, <[filename := written]> fs, t)
                    end
                end
            end
        end
    end.
Proof.
  unfold first_time_setup.
  unfold bind at 1 2. unfold emit at 1. unfold lift at 1.
  destruct (download env) as [e|dir]; [reflexivity |].
  unfold bind at 1 2 3. unfold emit at 1. unfold lift at 1.
  destruct (read_excel dir (locate (map fst dir))) as [e|cy]; [reflexivity |].
  rewrite train_training_table.
  destruct (training_table cy) as [e|[[LE ind] dep]]; [reflexivity |].
  destruct (LinearRegression_fit ind dep) as [e|LR]; [reflexivity |].
  unfold bind, write_artifact, emit, ret. cbn [fst snd].
  destruct (fault env) as [[e|e written]|]; reflexivity.
Qed.

(** The training table fails only on an absent required label. *)
Lemma training_table_error (cy : DataFrame) (e : exn) :
  training_table cy = inl e ->
  exists c, e = KeyError c /\ In c required_columns /\ has_column c cy = false.
Proof.
  unfold training_table.
  destruct (encode_temperature (dropna cy)) as [e'|[LE cy']] eqn:He.
  - exfalso.
    destruct (index_of temperature_column (columns (dropna cy))) as [i|] eqn:Hi.
    + pose proof (encode_temperature_present (dropna cy) i Hi) as Hp.
      cbv zeta in Hp. congruence.
    + rewrite encode_temperature_absent in He; [discriminate |].
      unfold has_column. now rewrite Hi.
  - assert (Hcols : columns cy' = columns cy).
    { destruct (index_of temperature_column (columns (dropna cy))) as [i|] eqn:Hi.
      - pose proof (encode_temperature_present (dropna cy) i Hi) as Hp.
        cbv zeta in Hp. rewrite Hp in He. now injection He as _ <-.
      - rewrite encode_temperature_absent in He.
        + now injection He as _ <-.
        + unfold has_column. now rewrite Hi. }
    cbn [rbind fst snd]. unfold getitems, getitem. rewrite Hcols.
    destruct (indices_of feature_columns (columns cy)) as [e'|idxs] eqn:Hidx;
      cbn [rbind].
    + intros [= <-]. destruct (indices_of_error _ _ _ Hidx) as (c & -> & Hin & Hc).
      exists c. repeat split.
      * unfold required_columns. apply in_or_app. now left.
      * unfold has_column. now rewrite Hc.
    + destruct (index_of target_column (columns cy)) as [j|] eqn:Hj;
        cbn [rbind]; [discriminate |].
      intros [= <-]. exists target_column. repeat split.
      * unfold required_columns. apply in_or_app. right. now left.
      * unfold has_column. now rewrite Hj.
Qed.

(** A training table exists only when all seven labels are there. *)
Lemma training_table_columns (cy : DataFrame) (LE : LabelEncoder)
    (ind : list (list cell)) (dep : list cell) (c : string) :
  training_table cy = inr (LE, ind, dep) ->
  In c required_columns ->
  has_column c cy = true.
Proof.
  intros Ht Hin.
  destruct (training_table_inv cy LE ind dep Ht) as (i & _ & _ & Hind & Hdep).
  cbv zeta in Hind, Hdep. unfold getitems in Hind. unfold getitem in Hdep.
  cbn [columns rows] in Hind, Hdep.
  destruct (indices_of feature_columns (columns cy)) as [e|idxs] eqn:Hidx;
    [discriminate |].
  destruct (index_of target_column (columns cy)) as [j|] eqn:Hj; [| discriminate].
  unfold required_columns in Hin. apply in_app_or in Hin as [Hin | [<- | []]].
  - pose proof (indices_of_present _ _ _ c Hidx Hin) as Hc.
    unfold has_column. now destruct (index_of c (columns cy)).
  - unfold has_column. now rewrite Hj.
Qed.

End Stages.

Section Setup.
Context `{P : Platform}.

(** X15: an initialization error shown by the provider comes from exactly
    one of these: the download, the read of the located file, a required
    label that the table lacks ([KeyError]), the fit, or the write of the
    artifact; the encoding step is never the cause.  The provider then
    returns [None]. *)
Theorem initialization_error_causes
    (env : Env) (fs fs1 : gmap string blob) (r : result pyobj)
    (t : list event) (e : exn) :
  fs !! filename = None ->
  get_model_data env fs = (r, fs1, t) ->
  In (InitializationError e) t ->
  r = inr PyNone /\
  (download env = inl e \/
   (exists dir,
      download env = inr dir /\
      read_excel dir (locate (map fst dir)) = inl e) \/
   (exists dir cy c,
      download env = inr dir /\
      read_excel dir (locate (map fst dir)) = inr cy /\
      e = KeyError c /\ In c required_columns /\ has_column c cy = false) \/
   (exists dir cy LE ind dep,
      download env = inr dir /\
      read_excel dir (locate (map fst dir)) = inr cy /\
      training_table cy = inr (LE, ind, dep) /\
      LinearRegression_fit ind dep = inl e) \/
   fault env = Some (OpenFails e) \/
   (exists written, fault env = Some (DumpFails e written))).
Proof.
  intros Hfs Hg Hin.
  rewrite (get_model_data_absent env fs Hfs), first_time_setup_stages in Hg.
  destruct (download env) as [e0|dir] eqn:Hd.
  { injection Hg as <- _ <-. simpl in Hin.
    destruct Hin as [H | [H | [H | []]]]; try discriminate.
    injection H as ->. split; [reflexivity | now left]. }
  cbv zeta in Hg.
  destruct (read_excel dir (locate (map fst dir))) as [e0|cy] eqn:Hr.
  { injection Hg as <- _ <-. simpl in Hin.
    destruct Hin as [H | [H | [H | [H | []]]]]; try discriminate.
    injection H as ->. split; [reflexivity |]. right. left. now exists dir. }
  destruct (training_table cy) as [e0|[[LE ind] dep]] eqn:Ht.
  { injection Hg as <- _ <-. simpl in Hin.
    destruct Hin as [H | [H | [H | [H | []]]]]; try discriminate.
    injection H as ->. split; [reflexivity |]. right. right. left.
    destruct (training_table_error cy e Ht) as (c & -> & Hc & Hm).
    now exists dir, cy, c. }
  destruct (LinearRegression_fit ind dep) as [e0|LR] eqn:Hf.
  { injection Hg as <- _ <-. simpl in Hin.
    destruct Hin as [H | [H | [H | [H | [H | []]]]]]; try discriminate.
    injection H as ->. split; [reflexivity |]. right. right. right. left.
    now exists dir, cy, LE, ind, dep. }
  destruct (fault env) as [[e0|e0 written]|] eqn:Hw.
  - injection Hg as <- _ <-. simpl in Hin.
    destruct Hin as [H | [H | [H | [H | [H | [H | []]]]]]]; try discriminate.
    injection H as ->. split; [reflexivity |]. do 4 right. now left.
  - injection Hg as <- _ <-. simpl in Hin.
    destruct Hin as [H | [H | [H | [H | [H | [H | []]]]]]]; try discriminate.
    injection H as ->. split; [reflexivity |]. do 5 right. now exists written.
  - exfalso. injection Hg as _ _ <-. simpl in Hin.
    destruct Hin as [H | [H | [H | [H | [H | [H | []]]]]]]; discriminate.
Qed.

(** X16: if the loaded table lacks any of the seven labels that the setup
    reads (the six features or the yield), the setup ends in [KeyError] on an
    absent label before any fit: the provider returns [None] and writes no
    file. *)
Theorem missing_required_column_fails_setup
    (env : Env) (fs : gmap string blob) (dir : directory) (cy : DataFrame)
    (c : string) :
  fs !! filename = None ->
  download env = inr dir ->
  read_excel dir (locate (map fst dir)) = inr cy ->
  In c required_columns ->
  has_column c cy = false ->
  exists c',
    In c' required_columns /\
    has_column c' cy = false /\
    get_model_data env fs =
      (inr PyNone, fs,
       [StatusWarning; DatasetDownload; ReadExcel (locate (map fst dir));
        InitializationError (KeyError c')]).
Proof.
  intros Hfs Hd Hr Hin Hc.
  destruct (training_table cy) as [e|[[LE ind] dep]] eqn:Ht.
  - destruct (training_table_error cy e Ht) as (c' & -> & Hin' & Hc').
    exists c'. repeat split; [exact Hin' | exact Hc' |].
    rewrite (get_model_data_absent env fs Hfs), first_time_setup_stages, Hd.
    cbv zeta. now rewrite Hr, Ht.
  - rewrite (training_table_columns cy LE ind dep c Ht Hin) in Hc. discriminate.
Qed.

(** X17: in a process that starts without an artifact and with an empty
    cache, the first-time setup is attempted once, however many runs follow
    and whether it fails or not: over the whole session there is at most one
    download, at most one fit and at most one write of the artifact, and the
    value that the first run returns stays in the cache. *)
Theorem setup_runs_once_per_process
    (fs : gmap string blob) (env : Env) (f : Form) (runs : list (Env * Form)) :
  fs !! filename = None ->
  (occurrences is_download
     (fst (session_events {| cache := None; files := fs |} ((env, f) :: runs))) <= 1)%nat /\
  (occurrences is_fit
     (fst (session_events {| cache := None; files := fs |} ((env, f) :: runs))) <= 1)%nat /\
  (occurrences is_write
     (fst (session_events {| cache := None; files := fs |} ((env, f) :: runs))) <= 1)%nat /\
  exists data fs1 t,
    get_model_data env fs = (inr data, fs1, t) /\
    snd (session_events {| cache := None; files := fs |} ((env, f) :: runs)) =
      {| cache := Some data; files := fs1 |}.
Proof.
  intros Hfs. simpl. unfold run_script. cbn [cache files].
  assert (Hg : exists data fs1 t,
             get_model_data env fs = (inr data, fs1, t) /\
             (occurrences is_download t <= 1)%nat /\
             (occurrences is_fit t <= 1)%nat /\
             (occurrences is_write t <= 1)%nat).
  { rewrite (get_model_data_absent env fs Hfs), first_time_setup_stages.
    destruct (download env) as [e|dir];
      [do 3 eexists; split; [reflexivity | cbn; lia] |].
    cbv zeta.
    destruct (read_excel dir (locate (map fst dir))) as [e|cy];
      [do 3 eexists; split; [reflexivity | cbn; lia] |].
    destruct (training_table cy) as [e|[[LE ind] dep]];
      [do 3 eexists; split; [reflexivity | cbn; lia] |].
    destruct (LinearRegression_fit ind dep) as [e|LR];
      [do 3 eexists; split; [reflexivity | cbn; lia] |].
    destruct (fault env) as [[e|e written]|];
      do 3 eexists; (split; [reflexivity | cbn; lia]). }
  destruct Hg as (data & fs1 & t & Hg & H1 & H2 & H3). rewrite Hg.
  destruct (session_cached data fs1 runs) as [_ Hc]. rewrite Hc. cbn [fst snd].
  rewrite app_nil_r. repeat split; try assumption.
  now exists data, fs1, t.
Qed.

(** X18: a setup that returns a model went through every stage: the
    returned dictionary holds the regression fitted on the training table of
    the located sheet and the encoder of that table, the artifact file holds
    its pickle, and the messages and calls came in the order warning,
    download, read, fit, write, success. *)
Theorem successful_setup_fits_training_table
    (env : Env) (fs fs1 : gmap string blob) (data : pyobj) (t : list event) :
  fs !! filename = None ->
  get_model_data env fs = (inr data, fs1, t) ->
  truthy data = true ->
  exists dir cy LE ind dep LR,
    download env = inr dir /\
    read_excel dir (locate (map fst dir)) = inr cy /\
    training_table cy = inr (LE, ind, dep) /\
    LinearRegression_fit ind dep = inr LR /\
    fault env = None /\
    data = PyDict {[ "model" := PyModel LR; "encoder_temp" := PyEncoder LE ]} /\
    fs1 = <[filename := pickle_dumps data]> fs /\
    t = [StatusWarning; DatasetDownload; ReadExcel (locate (map fst dir));
         ModelFit; ArtifactWrite; StatusSuccess].
Proof.
  intros Hfs Hg Ht.
  rewrite (get_model_data_absent env fs Hfs), first_time_setup_stages in Hg.
  destruct (download env) as [e|dir]; [injection Hg as <- _ _; discriminate |].
  cbv zeta in Hg.
  destruct (read_excel dir (locate (map fst dir))) as [e|cy] eqn:Hr;
    [injection Hg as <- _ _; discriminate |].
  destruct (training_table cy) as [e|[[LE ind] dep]] eqn:Htt;
    [injection Hg as <- _ _; discriminate |].
  destruct (LinearRegression_fit ind dep) as [e|LR] eqn:Hf;
    [injection Hg as <- _ _; discriminate |].
  destruct (fault env) as [[e|e written]|] eqn:Hw.
  - injection Hg as <- _ _. discriminate.
  - injection Hg as <- _ _. discriminate.
  - injection Hg as <- <- <-. clear Ht.
    exists dir, cy, LE, ind, dep, LR. repeat split; assumption || reflexivity.
Qed.

End Setup.

(** * The further properties on concrete inputs *)

Example sample_endswith :
  endswith "yield.xlsx" ".xlsx" = true /\ endswith "xlsx" ".xlsx" = false /\
  endswith "sheet.xlsx.bak" ".xlsx" = false.
Proof. repeat split; reflexivity. Qed.

Example sample_expected_name_wins :
  locate ["other.xlsx"; "crop yield data sheet.xlsx"] = dataset_name.
Proof. vm_compute. reflexivity. Qed.

Lemma no_spreadsheet_fails_setup_witness :
  get_model_data
    {| download := inr [("readme.txt", inl (ValueError "not a workbook"))];
       fault := None |} ∅ =
    (inr PyNone, ∅,
     [StatusWarning; DatasetDownload; ReadExcel dataset_name;
      InitializationError (FileNotFoundError dataset_name)]).
Proof.
  apply (no_spreadsheet_fails_setup
           {| download := inr [("readme.txt", inl (ValueError "not a workbook"))];
              fault := None |} ∅
           [("readme.txt", inl (ValueError "not a workbook"))]).
  - vm_compute. reflexivity.
  - reflexivity.
  - vm_compute. intros [H | []]. discriminate H.
  - repeat constructor.
Defined.

Lemma fallback_reads_first_xlsx_witness :
  locate (map fst [("readme.txt", inl (ValueError "not a workbook"));
                   ("yield.xlsx", inr Sample.sheet)]) = "yield.xlsx" /\
  exists r fs1 t,
    first_time_setup
      {| download := inr [("readme.txt", inl (ValueError "not a workbook"));
                          ("yield.xlsx", inr Sample.sheet)];
         fault := None |} ∅ =
      (r, fs1, DatasetDownload :: ReadExcel "yield.xlsx" :: t).
Proof.
  apply (fallback_reads_first_xlsx
           {| download := inr [("readme.txt", inl (ValueError "not a workbook"));
                               ("yield.xlsx", inr Sample.sheet)];
              fault := None |} ∅
           [("readme.txt", inl (ValueError "not a workbook"));
            ("yield.xlsx", inr Sample.sheet)]
           ["readme.txt"] [] "yield.xlsx").
  - reflexivity.
  - vm_compute. intros [H | [H | []]]; discriminate H.
  - reflexivity.
  - reflexivity.
  - repeat constructor.
Defined.

Lemma training_table_has_no_missing_value_witness :
  Forall (Forall (fun c => isna c = false))
    [[CInt 1230; CInt 80; CInt 0; CInt 80; CInt 24; CInt 20];
     [CInt 480; CInt 60; CInt 1; CInt 70; CInt 20; CInt 18];
     [CInt 1250; CInt 75; CInt 0; CInt 78; CInt 22; CInt 19]] /\
  Forall (fun c => isna c = false) [CInt 12; CInt 8; CInt 11] /\
  length [[CInt 1230; CInt 80; CInt 0; CInt 80; CInt 24; CInt 20];
          [CInt 480; CInt 60; CInt 1; CInt 70; CInt 20; CInt 18];
          [CInt 1250; CInt 75; CInt 0; CInt 78; CInt 22; CInt 19]] =
    length (rows (dropna (inject_row 1 Sample.gap_row Sample.sheet))) /\
  length [CInt 12; CInt 8; CInt 11] =
    length (rows (dropna (inject_row 1 Sample.gap_row Sample.sheet))).
Proof.
  apply (training_table_has_no_missing_value
           (inject_row 1 Sample.gap_row Sample.sheet)
           {| classes_ := Some ["28"; "36"] |}).
  - repeat constructor.
  - vm_compute. reflexivity.
Defined.

Lemma training_code_is_inference_code_witness :
  exists x,
    [[CInt 1230; CInt 80; CInt 0; CInt 80; CInt 24; CInt 20];
     [CInt 480; CInt 60; CInt 1; CInt 70; CInt 20; CInt 18];
     [CInt 1250; CInt 75; CInt 0; CInt 78; CInt 22; CInt 19]] !! 1%nat = Some x /\
    x !! 2%nat =
      Some (CInt (final_temp (PyEncoder {| classes_ := Some ["28"; "36"] |}) 36)).
Proof.
  apply (training_code_is_inference_code Sample.sheet
           {| classes_ := Some ["28"; "36"] |} _ [CInt 12; CInt 8; CInt 11] 1
           [CInt 480; CInt 60; CInt 36; CInt 70; CInt 20; CInt 18; CInt 8] 36).
  - vm_compute. reflexivity.
  - vm_compute. reflexivity.
  - reflexivity.
  - vm_compute. reflexivity.
Defined.

Lemma seen_temperatures_get_distinct_codes_witness :
  0 <= final_temp (PyEncoder {| classes_ := Some ["28"; "36"] |}) 28 <
    Z.of_nat (length ["28"; "36"]) /\
  (final_temp (PyEncoder {| classes_ := Some ["28"; "36"] |}) 28 =
   final_temp (PyEncoder {| classes_ := Some ["28"; "36"] |}) 36 -> 28 = 36).
Proof.
  apply (seen_temperatures_get_distinct_codes ["28"; "36"] 28 36).
  - vm_compute. left. reflexivity.
  - vm_compute. right. left. reflexivity.
Defined.


Lemma artifact_without_model_raises_every_run_witness :
  Forall (fun pg => pg = inl (KeyError "model"))
    (session
       {| cache := None;
          files := {[ filename := Sample.Whole (PyDict {[ "encoder_temp" := PyNone ]}) ]} |}
       [(Sample.env_ok, Sample.form); (Sample.env_offline, Sample.form31)]) /\
  fst (session_events
         {| cache := None;
            files := {[ filename := Sample.Whole (PyDict {[ "encoder_temp" := PyNone ]}) ]} |}
         [(Sample.env_ok, Sample.form); (Sample.env_offline, Sample.form31)]) = [] /\
  files (snd (session_events
         {| cache := None;
            files := {[ filename := Sample.Whole (PyDict {[ "encoder_temp" := PyNone ]}) ]} |}
         [(Sample.env_ok, Sample.form); (Sample.env_offline, Sample.form31)])) =
    {[ filename := Sample.Whole (PyDict {[ "encoder_temp" := PyNone ]}) ]}.
Proof.
  apply (artifact_without_model_raises_every_run (P := Sample.platform)
           {[ filename := Sample.Whole (PyDict {[ "encoder_temp" := PyNone ]}) ]}
           (Sample.Whole (PyDict {[ "encoder_temp" := PyNone ]}))
           {[ "encoder_temp" := PyNone ]}).
  - vm_compute. reflexivity.
  - reflexivity.
  - intros H. apply (f_equal (fun m : gmap string pyobj => m !! "encoder_temp")) in H.
    vm_compute in H. discriminate H.
  - vm_compute. reflexivity.
Defined.

Lemma corrupt_artifact_raises_every_run_witness :
  Forall (fun pg => pg = inl (UnpicklingError "pickle data was truncated"))
    (session
       {| cache := None; files := {[ filename := Sample.Truncated PyNone ]} |}
       [(Sample.env_ok, Sample.form); (Sample.env_ok, Sample.form31)]) /\
  session_events
    {| cache := None; files := {[ filename := Sample.Truncated PyNone ]} |}
    [(Sample.env_ok, Sample.form); (Sample.env_ok, Sample.form31)] =
    ([], {| cache := None; files := {[ filename := Sample.Truncated PyNone ]} |}).
Proof.
  apply (corrupt_artifact_raises_every_run (P := Sample.platform)
           {[ filename := Sample.Truncated PyNone ]} (Sample.Truncated PyNone)
           (UnpicklingError "pickle data was truncated")).
  - vm_compute. reflexivity.
  - reflexivity.
Defined.

Lemma get_model_data_raises_only_on_load_witness :
  exists b,
    ({[ filename := Sample.Truncated PyNone ]} : gmap string blob) !! filename = Some b /\
    pickle_loads b = inl (UnpicklingError "pickle data was truncated") /\
    ({[ filename := Sample.Truncated PyNone ]} : gmap string blob) =
      {[ filename := Sample.Truncated PyNone ]} /\
    ([] : list event) = [].
Proof.
  apply (get_model_data_raises_only_on_load Sample.env_ok
           {[ filename := Sample.Truncated PyNone ]}
           {[ filename := Sample.Truncated PyNone ]}
           (UnpicklingError "pickle data was truncated") []).
  vm_compute. reflexivity.
Defined.

Lemma initialization_error_causes_witness :
  (inr PyNone : result pyobj) = inr PyNone /\
  (download Sample.env_offline = inl (OSError "Network is unreachable") \/
   (exists dir,
      download Sample.env_offline = inr dir /\
      read_excel dir (locate (map fst dir)) = inl (OSError "Network is unreachable")) \/
   (exists dir cy c,
      download Sample.env_offline = inr dir /\
      read_excel dir (locate (map fst dir)) = inr cy /\
      OSError "Network is unreachable" = KeyError c /\
      In c required_columns /\ has_column c cy = false) \/
   (exists dir cy LE ind dep,
      download Sample.env_offline = inr dir /\
      read_excel dir (locate (map fst dir)) = inr cy /\
      training_table cy = inr (LE, ind, dep) /\
      LinearRegression_fit ind dep = inl (OSError "Network is unreachable")) \/
   fault Sample.env_offline = Some (OpenFails (OSError "Network is unreachable")) \/
   (exists written,
      fault Sample.env_offline =
        Some (DumpFails (OSError "Network is unreachable") written))).
Proof.
  apply (initialization_error_causes Sample.env_offline ∅ ∅ (inr PyNone)
           [StatusWarning; DatasetDownload;
            InitializationError (OSError "Network is unreachable")]
           (OSError "Network is unreachable")).
  - vm_compute. reflexivity.
  - vm_compute. reflexivity.
  - simpl. tauto.
Defined.

Lemma missing_required_column_fails_setup_witness :
  exists c',
    In c' required_columns /\
    has_column c' Sample.sheet_renamed = false /\
    get_model_data Sample.env_renamed ∅ =
      (inr PyNone, ∅,
       [StatusWarning; DatasetDownload; ReadExcel dataset_name;
        InitializationError (KeyError c')]).
Proof.
  apply (missing_required_column_fails_setup Sample.env_renamed ∅
           [(dataset_name, inr Sample.sheet_renamed)] Sample.sheet_renamed
           temperature_column).
  - vm_compute. reflexivity.
  - reflexivity.
  - vm_compute. reflexivity.
  - simpl. tauto.
  - vm_compute. reflexivity.
Defined.

Lemma setup_runs_once_per_process_witness :
  (occurrences is_download
     (fst (session_events {| cache := None; files := ∅ |}
             ((Sample.env_ok, Sample.form) :: [(Sample.env_ok, Sample.form31)]))) <= 1)%nat /\
  (occurrences is_fit
     (fst (session_events {| cache := None; files := ∅ |}
             ((Sample.env_ok, Sample.form) :: [(Sample.env_ok, Sample.form31)]))) <= 1)%nat /\
  (occurrences is_write
     (fst (session_events {| cache := None; files := ∅ |}
             ((Sample.env_ok, Sample.form) :: [(Sample.env_ok, Sample.form31)]))) <= 1)%nat /\
  exists data fs1 t,
    get_model_data Sample.env_ok ∅ = (inr data, fs1, t) /\
    snd (session_events {| cache := None; files := ∅ |}
           ((Sample.env_ok, Sample.form) :: [(Sample.env_ok, Sample.form31)])) =
      {| cache := Some data; files := fs1 |}.
Proof.
  apply (setup_runs_once_per_process ∅ Sample.env_ok Sample.form
           [(Sample.env_ok, Sample.form31)]).
  vm_compute. reflexivity.
Defined.

Lemma successful_setup_fits_training_table_witness :
  exists dir cy LE ind dep LR,
    download Sample.env_ok = inr dir /\
    read_excel dir (locate (map fst dir)) = inr cy /\
    training_table cy = inr (LE, ind, dep) /\
    LinearRegression_fit ind dep = inr LR /\
    fault Sample.env_ok = None /\
    Sample.data_sheet =
      PyDict {[ "model" := PyModel LR; "encoder_temp" := PyEncoder LE ]} /\
    ({[ filename := Sample.Whole Sample.data_sheet ]} : gmap string blob) =
      <[filename := pickle_dumps Sample.data_sheet]> ∅ /\
    [StatusWarning; DatasetDownload; ReadExcel dataset_name; ModelFit;
     ArtifactWrite; StatusSuccess] =
    [StatusWarning; DatasetDownload; ReadExcel (locate (map fst dir));
     ModelFit; ArtifactWrite; StatusSuccess].
Proof.
  apply (successful_setup_fits_training_table Sample.env_ok ∅
           {[ filename := Sample.Whole Sample.data_sheet ]} Sample.data_sheet
           [StatusWarning; DatasetDownload; ReadExcel dataset_name; ModelFit;
            ArtifactWrite; StatusSuccess]).
  - vm_compute. reflexivity.
  - vm_compute. reflexivity.
  - vm_compute. reflexivity.
Defined.

Lemma existing_artifact_is_never_rewritten_witness :
  Forall (fun ev => is_call ev = false)
    (fst (session_events
            {| cache := Some PyNone; files := {[ filename := Sample.Truncated PyNone ]} |}
            [(Sample.env_ok, Sample.form); (Sample.env_disk_full, Sample.form31)])) /\
  files (snd (session_events
            {| cache := Some PyNone; files := {[ filename := Sample.Truncated PyNone ]} |}
            [(Sample.env_ok, Sample.form); (Sample.env_disk_full, Sample.form31)])) =
    files {| cache := Some PyNone; files := {[ filename := Sample.Truncated PyNone ]} |}.
Proof.
  apply (existing_artifact_is_never_rewritten (P := Sample.platform)
           {| cache := Some PyNone; files := {[ filename := Sample.Truncated PyNone ]} |}
           (Sample.Truncated PyNone)).
  vm_compute. reflexivity.
Defined.

Lemma expected_sheet_takes_precedence_witness :
  locate (map fst [("other.xlsx", inl (ValueError "not a workbook"));
                   (dataset_name, inr Sample.sheet)]) = dataset_name /\
  exists r fs1 t,
    first_time_setup
      {| download := inr [("other.xlsx", inl (ValueError "not a workbook"));
                          (dataset_name, inr Sample.sheet)];
         fault := None |} ∅ =
      (r, fs1, DatasetDownload :: ReadExcel dataset_name :: t).
Proof.
  apply (expected_sheet_takes_precedence
           {| download := inr [("other.xlsx", inl (ValueError "not a workbook"));
                               (dataset_name, inr Sample.sheet)];
              fault := None |} ∅
           [("other.xlsx", inl (ValueError "not a workbook"));
            (dataset_name, inr Sample.sheet)]).
  - reflexivity.
  - simpl. tauto.
Defined.

(** * Rows with a missing value and the types of the columns *)

(** ** Column types *)

Lemma dtype_join_comm (a b : dtype) : dtype_join a b = dtype_join b a.
Proof. now destruct a, b. Qed.

Lemma dtype_join_assoc (a b c : dtype) :
  dtype_join a (dtype_join b c) = dtype_join (dtype_join a b) c.
Proof. now destruct a, b, c. Qed.

Lemma column_dtype_app (l1 l2 : list cell) :
  column_dtype (l1 ++ l2)%list = dtype_join (column_dtype l1) (column_dtype l2).
Proof.
  induction l1 as [|c l1 IH]; simpl.
  - now destruct (column_dtype l2).
  - unfold column_dtype in *. simpl. rewrite IH. apply dtype_join_assoc.
Qed.

(** A cell put into a column joins its type to the column's. *)
Lemma column_dtype_insert (l1 l2 : list cell) (x : cell) :
  column_dtype (l1 ++ x :: l2)%list =
  dtype_join (cell_dtype x) (column_dtype (l1 ++ l2)%list).
Proof.
  rewrite !column_dtype_app.
  change (column_dtype (x :: l2)) with (dtype_join (cell_dtype x) (column_dtype l2)).
  rewrite !dtype_join_assoc. f_equal. apply dtype_join_comm.
Qed.

(** An [int64] column holds integers only. *)
Lemma column_dtype_Int64 (col : list cell) (c : cell) :
  column_dtype col = Int64 -> In c col -> exists z, c = CInt z.
Proof.
  induction col as [|x col IH]; simpl; intros Hd Hin; [contradiction |].
  change (dtype_join (cell_dtype x) (column_dtype col) = Int64) in Hd.
  destruct Hin as [-> | Hin].
  - destruct c; simpl in Hd; try (destruct (column_dtype col); discriminate).
    now exists z.
  - apply IH; [| exact Hin].
    destruct (cell_dtype x), (column_dtype col); try discriminate; reflexivity.
Qed.

Lemma column_cells_inject (j k : nat) (r : list cell) (rs : list (list cell)) :
  column_dtype (column_cells j (take k rs ++ r :: drop k rs)%list) =
  dtype_join (cell_dtype (nth j r CNA)) (column_dtype (column_cells j rs)).
Proof.
  unfold column_cells. rewrite map_app. simpl map.
  rewrite column_dtype_insert, <- map_app, take_drop. reflexivity.
Qed.

(** Joining the type of a cell that is not a string leaves a column type as
    it is or turns [int64] into [float64]. *)
Lemma dtype_join_step (e d : dtype) :
  e <> Object ->
  dtype_join e d = d \/ (d = Int64 /\ dtype_join e d = Float64).
Proof. destruct e, d; intros He; try contradiction; simpl; tauto. Qed.

Lemma nth_not_str (j : nat) (r : list cell) :
  (forall s, ~ In (CStr s) r) -> cell_dtype (nth j r CNA) <> Object.
Proof.
  intros Hr. destruct (nth_in_or_default j r CNA) as [Hin | ->]; [| discriminate].
  destruct (nth j r CNA) eqn:E; try discriminate.
  exfalso. exact (Hr s Hin).
Qed.

(** ** Rows after conversion *)

Lemma nth_imap {A} (f : nat -> A -> A) (d : A) (l : list A) (j : nat) :
  nth j (imap f l) d =
  match l !! j with
  | Some c => f j c
  | None => d
  end.
Proof.
  rewrite nth_lookup, list_lookup_imap. now destruct (l !! j).
Qed.




(** ** Codes under a relabelling that keeps the order *)


Section Relabel.
Context {A : Type}.
Variables (f g : A -> string) (keys : list A).
Hypothesis same_order :
  forall a b, In a keys -> In b keys ->
    String.compare (g a) (g b) = String.compare (f a) (f b).





End Relabel.

(** ** A sheet with a row put in, after loading *)



Section Retyped.
Context `{P : Platform}.
Variables (float_of_int : Z -> float) (sheet : DataFrame) (k : nat) (r : list cell).

Hypothesis ints_not_nan :
  forall s z, In s (rows sheet) -> In (CInt z) s ->
    PrimFloat.is_nan (float_of_int z) = false.
Hypothesis labels_sort_alike :
  forall s1 s2, In s1 (rows sheet) -> In s2 (rows sheet) ->
    String.compare
      (temperature_label float_of_int (inject_row k r sheet) s1)
      (temperature_label float_of_int (inject_row k r sheet) s2) =
    String.compare
      (temperature_label float_of_int sheet s1)
      (temperature_label float_of_int sheet s2).
Hypothesis row_has_gap : In CNA r.










End Retyped.

(** ** When the temperatures are integers *)

Section IntegerTemperatures.
Context `{P : Platform}.
Variables (float_of_int : Z -> float) (sheet : DataFrame) (k : nat) (r : list cell).

Hypothesis row_has_no_string : forall s, ~ In (CStr s) r.
Hypothesis float_labels_sort_like_integers :
  forall s1 s2 z1 z2,
    In s1 (rows sheet) -> In s2 (rows sheet) ->
    cell_at sheet s1 temperature_column = CInt z1 ->
    cell_at sheet s2 temperature_column = CInt z2 ->
    String.compare (float_repr (float_of_int z1)) (float_repr (float_of_int z2)) =
    String.compare (pretty z1) (pretty z2).

(** With a new row that holds no string, the type of a column changes, if at
    all, from [int64] to [float64]. *)
Lemma column_step (j : nat) :
  column_dtype (column_cells j (rows (inject_row k r sheet))) =
    column_dtype (column_cells j (rows sheet)) \/
  (column_dtype (column_cells j (rows sheet)) = Int64 /\
   column_dtype (column_cells j (rows (inject_row k r sheet))) = Float64).
Proof.
  unfold inject_row. cbn [rows]. rewrite column_cells_inject.
  apply dtype_join_step. now apply nth_not_str.
Qed.

(** Column by column, the cells of the old rows are unchanged or are all
    integers turned into floats. *)
Lemma column_relation (j : nat) :
  (forall s, In s (rows sheet) ->
     nth j (retype_row float_of_int (inject_row k r sheet) s) CNA =
     nth j (retype_row float_of_int sheet s) CNA) \/
  (forall s, In s (rows sheet) ->
     exists z,
       nth j s CNA = CInt z /\
       nth j (retype_row float_of_int sheet s) CNA = CInt z /\
       nth j (retype_row float_of_int (inject_row k r sheet) s) CNA =
         CFloat (float_of_int z)).
Proof.
  destruct (column_step j) as [Heq | [Hi Hf]].
  - left. intros s _. unfold retype_row. rewrite !nth_imap.
    destruct (s !! j); [now rewrite Heq | reflexivity].
  - right. intros s Hs.
    assert (Hin : In (nth j s CNA) (column_cells j (rows sheet))).
    { unfold column_cells. apply in_map_iff. now exists s. }
    destruct (column_dtype_Int64 _ _ Hi Hin) as [z Hz].
    exists z. split; [exact Hz |].
    unfold retype_row. rewrite !nth_imap.
    rewrite nth_lookup in Hz.
    destruct (s !! j) as [c|]; simpl in Hz; [subst c | discriminate].
    rewrite Hi, Hf. split; reflexivity.
Qed.

(** Python prints the float of an integer as the integer followed by [.0],
    which sorts like the integer; then the temperature labels of the rows
    sort alike with and without a new row that holds no string. *)
Lemma integer_temperature_labels_sort_alike (s1 s2 : list cell) :
  In s1 (rows sheet) -> In s2 (rows sheet) ->
  String.compare
    (temperature_label float_of_int (inject_row k r sheet) s1)
    (temperature_label float_of_int (inject_row k r sheet) s2) =
  String.compare
    (temperature_label float_of_int sheet s1)
    (temperature_label float_of_int sheet s2).
Proof.
  intros H1 H2. unfold temperature_label, cell_at.
  change (columns (inject_row k r sheet)) with (columns sheet).
  destruct (index_of temperature_column (columns sheet)) as [i|] eqn:Hi;
    [| reflexivity].
  destruct (column_relation i) as [H | H].
  - now rewrite (H s1 H1), (H s2 H2).
  - destruct (H s1 H1) as (z1 & Hz1 & -> & ->).
    destruct (H s2 H2) as (z2 & Hz2 & -> & ->).
    apply (float_labels_sort_like_integers s1 s2); auto;
      unfold cell_at; now rewrite Hi.
Qed.

End IntegerTemperatures.

Section MissingRows.
Context `{P : Platform}.


End MissingRows.


(** With the temperature cell of the new row left empty, the temperature
    column is loaded as floats and the labels change, the codes do not. *)
Example sample_gap_row_changes_labels :
  @training_table SampleFloat.platform
    (read_sheet Sample.float_of_Z (inject_row 1 SampleFloat.gap_row Sample.sheet)) =
    inr ({| classes_ := Some ["28.0"; "36.0"] |},
         [[CInt 1230; CInt 80; CInt 0; CInt 80; CInt 24; CInt 20];
          [CInt 480; CInt 60; CInt 1; CInt 70; CInt 20; CInt 18];
          [CInt 1250; CInt 75; CInt 0; CInt 78; CInt 22; CInt 19]],
         [CInt 12; CInt 8; CInt 11]) /\
  @training_table SampleFloat.platform (read_sheet Sample.float_of_Z Sample.sheet) =
    inr ({| classes_ := Some ["28"; "36"] |},
         [[CInt 1230; CInt 80; CInt 0; CInt 80; CInt 24; CInt 20];
          [CInt 480; CInt 60; CInt 1; CInt 70; CInt 20; CInt 18];
          [CInt 1250; CInt 75; CInt 0; CInt 78; CInt 22; CInt 19]],
         [CInt 12; CInt 8; CInt 11]).
Proof. split; vm_compute; reflexivity. Qed.

